(** * Fabric: link-bootstrap wire codec, controller join/dispatch, trace toggling

    A shallow embedding of
    - [router/xlink_transwarp/message.go] (the TRANSWARP v1 wire format,
      sending, receiving and dispatching link messages),
    - [controller/raft/raft.go] ([Controller.Join], [Controller.Dispatch],
      [Controller.initializeId]),
    - [trace/channel_peekhandler.go] (toggling and emitting channel traces),
    - [controller/config.go] ([verifyNewListenerInServerCert]),
    together with the properties stated about them. *)

From Stdlib Require Import Strings.Ascii Strings.String Strings.Byte.
From Stdlib Require Import ZArith List Bool Lia.
Import ListNotations.

Local Open Scope Z_scope.

(** ** Outcomes of Go calls

    A Go function of result type [(T, error)] either returns a value, returns
    an error, or faults at run time (an index or slice bound out of range). *)

Inductive result (A : Type) : Type :=
| Ok (a : A)
| Err (e : string)
| Panic.

Arguments Ok {A} a.
Arguments Err {A} e.
Arguments Panic {A}.

Definition bind {A B : Type} (r : result A) (k : A -> result B) : result B :=
  match r with
  | Ok a => k a
  | Err e => Err e
  | Panic => Panic
  end.

Notation "x <- r ;; k" := (bind r (fun x => k))
  (at level 61, r at next level, right associativity).

(** ** Machine integers and bytes *)

Module Wire.

Definition byteZ (b : byte) : Z := Z.of_N (Byte.to_N b).

(** Go's conversion [byte(v)]: the low eight bits of [v]. *)
Definition toByte (z : Z) : byte :=
  match Byte.of_N (Z.to_N (Z.land z 255)) with
  | Some b => b
  | None => x00
  end.

(** [binary.LittleEndian.PutUintN]: [n] bytes of [z], least significant first. *)
Fixpoint putLE (n : nat) (z : Z) : list byte :=
  match n with
  | O => []
  | S k => toByte z :: putLE k (Z.shiftr z 8)
  end.

(** [binary.LittleEndian.UintN]: [b0 | b1<<8 | b2<<16 | ...]. *)
Fixpoint getLE (bs : list byte) : Z :=
  match bs with
  | [] => 0
  | b :: r => Z.lor (byteZ b) (Z.shiftl (getLE r) 8)
  end.

(** Conversion of a 32-bit pattern to Go's [int32]. *)
Definition toInt32 (v : Z) : Z :=
  let w := v mod 2 ^ 32 in
  if w <? 2 ^ 31 then w else w - 2 ^ 32.

Definition toUint16 (v : Z) : Z := v mod 2 ^ 16.

Definition int32_range (z : Z) : Prop := - 2 ^ 31 <= z < 2 ^ 31.

End Wire.

Import Wire.

(** ** Go byte slices

    A slice is a window on a backing array: [elems] are the [len] visible
    bytes and [spare] the bytes of the array between [len] and [cap].
    Indexing is checked against [len]; re-slicing [s[lo:hi]] is checked
    against [cap]. Either check failing is a run-time fault. *)

Module Slice.

Record slice : Type := mkSlice { elems : list byte; spare : list byte }.

Definition ofList (l : list byte) : slice := mkSlice l [].

Definition backing (s : slice) : list byte := elems s ++ spare s.

Definition len (s : slice) : Z := Z.of_nat (length (elems s)).

Definition cap (s : slice) : Z := Z.of_nat (length (backing s)).

Definition index (s : slice) (i : Z) : result byte :=
  if (0 <=? i) && (i <? len s)
  then Ok (nth (Z.to_nat i) (elems s) x00)
  else Panic.

Definition reslice (s : slice) (lo hi : Z) : result slice :=
  if (0 <=? lo) && (lo <=? hi) && (hi <=? cap s)
  then Ok (mkSlice (firstn (Z.to_nat (hi - lo)) (skipn (Z.to_nat lo) (backing s)))
                   (skipn (Z.to_nat hi) (backing s)))
  else Panic.

End Slice.

Import Slice.

(** ** TRANSWARP v1 messages ([router/xlink_transwarp/message.go]) *)

Module Message.

Definition magicV1 : list byte := [x01; x02; x02; x00].

Definition messageSectionLength : Z := 15.

(** [type messageType uint8]: any byte is a value of the type; four are named. *)
Definition messageTypeT : Type := byte.

Definition Hello : messageTypeT := x00.
Definition Ping : messageTypeT := x01.
Definition Payload : messageTypeT := x02.
Definition Acknowledgement : messageTypeT := x03.

Definition mss : Z := 1472.
Definition noReplyFor : Z := -1.

Record message : Type := mkMessage {
  sequence : Z;             (* int32 *)
  fragment : byte;          (* uint8 *)
  ofFragments : byte;       (* uint8 *)
  messageType : messageTypeT;
  headersLength : Z;        (* uint16 *)
  payloadLength : Z;        (* uint16 *)
  payload : list byte
}.

(** A message whose integer fields are values of their Go types. *)
Definition wf_message (m : message) : Prop :=
  int32_range (sequence m) /\
  0 <= headersLength m < 2 ^ 16 /\
  0 <= payloadLength m < 2 ^ 16.

(** [binary.Read(bytes.NewBuffer(data), binary.LittleEndian, &ret)] for a
    fixed-size integer of [n] bytes: the first [n] bytes of [data] are
    consumed; fewer than [n] bytes is an error ([io.EOF] on an empty buffer,
    [io.ErrUnexpectedEOF] otherwise). Bytes after the first [n] are ignored. *)
Definition binaryRead (n : nat) (data : list byte) : result Z :=
  match data with
  | [] => Err "EOF"
  | _ => if (length data <? n)%nat
         then Err "unexpected EOF"
         else Ok (getLE (firstn n data))
  end.

Definition readInt32 (data : list byte) : result Z :=
  v <- binaryRead 4 data ;; Ok (toInt32 v).

Definition readUint16 (data : list byte) : result Z :=
  v <- binaryRead 2 data ;; Ok (toUint16 v).

(** The bytes accumulated in [data] by [encodeMessage] before the size check. *)
Definition frame (m : message) : list byte :=
  magicV1
  ++ putLE 4 (sequence m)
  ++ [fragment m; ofFragments m; messageType m]
  ++ putLE 2 0
  ++ putLE 2 (toUint16 (Z.of_nat (length (payload m))))
  ++ payload m.

(** [binary.Write] cannot fail on fixed-size integers written to a
    [bytes.Buffer], and [data.Read(buffer)] copies the whole (non-empty)
    buffer, so [n] is the number of bytes written. The error text leaves
    out the length that the code appends to it. *)
Definition encodeMessage (m : message) : result slice :=
  let data := frame m in
  let buffer := ofList data in
  let n := len buffer in
  if mss <? n then Err "message too long" else Ok buffer.

(** The four comparisons that the magic loop of [decodeMessage] makes. *)
Definition magicOk (b0 b1 b2 b3 : byte) : bool :=
  Byte.eqb b0 x01 && Byte.eqb b1 x02 && Byte.eqb b2 x02 && Byte.eqb b3 x00.

(** The loop [for i := 0; i < len(magicV1); i++] of [decodeMessage], from
    index [i], over the remaining magic bytes. *)
Fixpoint checkMagic (data : slice) (i : Z) (magic : list byte) : result unit :=
  match magic with
  | [] => Ok tt
  | b :: rest =>
      d <- index data i ;;
      if Byte.eqb d b then checkMagic data (i + 1) rest else Err "bad magic"
  end.

Definition wrapErr {A : Type} (ctx : string) (r : result A) : result A :=
  match r with
  | Err e => Err (ctx ++ " (" ++ e ++ ")")
  | other => other
  end.

(** [m.payloadLength] is never assigned by the decoder and keeps the zero
    value of [&message{}]. *)
Definition decodeMessage (data : slice) : result message :=
  if len data <? messageSectionLength then Err "short read" else
  _ <- checkMagic data 0 magicV1 ;;
  s48 <- reslice data 4 8 ;;
  sequence <- wrapErr "error reading sequence" (readInt32 (elems s48)) ;;
  fragment <- index data 8 ;;
  ofFragments <- index data 9 ;;
  mt <- index data 10 ;;
  s1113 <- reslice data 11 13 ;;
  headersLength <- wrapErr "error reading headers length" (readUint16 (elems s1113)) ;;
  if negb (headersLength =? 0) then Err "headers error" else
  s1315 <- reslice data 13 15 ;;
  payloadLength <- wrapErr "error reading payload length" (readUint16 (elems s1315)) ;;
  p <- reslice data (toUint16 (15 + headersLength))
                    (toUint16 (15 + headersLength + payloadLength)) ;;
  Ok (mkMessage sequence fragment ofFragments mt headersLength 0 (elems p)).

(** The message built by [writeHello] for a link identity token. *)
Definition helloMessage (token : list byte) : message :=
  mkMessage (-1) x00 x01 Hello 0 (toUint16 (Z.of_nat (length token))) token.

(** The message built by [writePing]. *)
Definition pingMessage (seq replyFor : Z) : message :=
  let payload := putLE 4 replyFor in
  mkMessage seq x00 x01 Ping 0 (toUint16 (Z.of_nat (length payload))) payload.

(** Calls made on the handler interfaces ([conn] and [peer] are passed
    through unchanged and are left out). *)
Inductive call : Type :=
| HandleHello (linkId : list byte)
| HandlePing (sequence replyFor : Z).

(** A handler function returns its [error] ([None] is [nil]) together with
    the calls it made on the handler; a nil message dereferenced is a fault. *)
Definition handled : Type := (result unit * list call)%type.

Definition handleHello (m : option message) : handled :=
  match m with
  | Some m =>
      if Byte.eqb (messageType m) Hello then
        if negb (sequence m =? -1) then (Err "hello expects sequence -1", [])
        else if negb (Byte.eqb (fragment m) x00) || negb (Byte.eqb (ofFragments m) x01)
        then (Err "hello expects single fragment", [])
        else (Ok tt, [HandleHello (payload m)])
      else (Err "expected hello", [])
  | None => (Err "nil message", [])
  end.

Definition handleMessage (m : option message) : handled :=
  match m with
  | Some m =>
      if Byte.eqb (messageType m) Ping then
        if negb (Byte.eqb (fragment m) x00) || negb (Byte.eqb (ofFragments m) x01)
        then (Err "ping expects single fragment", [])
        else match readInt32 (payload m) with
             | Ok replyFor => (Ok tt, [HandlePing (sequence m) replyFor])
             | Err e => (Err ("ping expects replyFor in payload (" ++ e ++ ")"), [])
             | Panic => (Panic, [])
             end
      else (Err "unexpected message type", [])
  | None => (Panic, [])
  end.

End Message.

Import Message.

(** ** The raft controller ([controller/raft/raft.go]) *)

Module Controller.

(** Go [error] values built by the controller. *)
Inductive error : Type :=
| Errorf (msg : string)                      (* errors.New / errors.Errorf *)
| Wrap (cause : error) (msg : string)        (* errors.Wrap / errors.Wrapf *)
| ApiError (body : list byte).               (* *errorz.ApiError decoded from a reply *)

(** [raft.ServerSuffrage] and [raft.Server] of hashicorp/raft. *)
Inductive ServerSuffrage : Type := Voter | Nonvoter | Staging.

Record Server : Type := mkServer {
  ID : string;
  Address : string;
  Suffrage : ServerSuffrage
}.

Record JoinRequest : Type := mkJoinRequest {
  Addr : string;
  Id : string;
  IsVoter : bool
}.

Definition isVoterSuffrage (s : ServerSuffrage) : bool :=
  match s with Voter => true | _ => false end.

(** The loop over [self.servers] that counts voters in a [uint32]. *)
Definition votingCount (servers : list Server) : Z :=
  fold_left
    (fun count server =>
       if isVoterSuffrage (Suffrage server) then (count + 1) mod 2 ^ 32 else count)
    servers 0.

(** Calls that [Join] makes on the consensus engine and on its sibling
    method. *)
Inductive JoinEffect : Type :=
| CallHandleJoin (req : JoinRequest)
| CallBootstrapCluster (servers : list Server).

Section Join.

(** The raft instance is an external collaborator: its state is opaque and
    the controller only reads [LastIndex] and calls [BootstrapCluster]. *)
Variable raftT : Type.
Variable LastIndex : raftT -> Z.
Variable BootstrapCluster : raftT -> list Server -> raftT * option error.

Record Controller : Type := mkController {
  bootstrapped : bool;
  servers : list Server;
  MinClusterSize : Z;          (* Config.MinClusterSize, uint32 *)
  Raft : raftT
}.

(** [Controller.HandleJoin] is declared in a file that is not among the
    sources; [Join] only calls it and returns what it returns. It is taken
    as a parameter that acts on the controller and returns an error or nil. *)
Variable HandleJoin : Controller -> JoinRequest -> Controller * option error.

Definition serverOf (req : JoinRequest) : Server :=
  let suffrage := if IsVoter req then Nonvoter else Voter in
  mkServer (Id req) (Addr req) suffrage.

(** [Join], under [clusterLock]: the new controller state, the returned
    error ([None] is nil) and the calls made. *)
Definition Join (self : Controller) (req : JoinRequest)
  : Controller * option error * list JoinEffect :=
  if String.eqb (Id req) "" then
    (self, Some (Errorf ("invalid server id '" ++ Id req ++ "'")), [])
  else if String.eqb (Addr req) "" then
    (self,
     Some (Errorf ("invalid server addr '" ++ Addr req ++ "' for servier " ++ Id req)),
     [])
  else if bootstrapped self || (0 <? LastIndex (Raft self)) then
    let '(self', err) := HandleJoin self req in
    (self', err, [CallHandleJoin req])
  else
    let servers' := servers self ++ [serverOf req] in
    let self1 := mkController (bootstrapped self) servers' (MinClusterSize self) (Raft self) in
    if MinClusterSize self <=? votingCount servers' then
      let '(raft', ferr) := BootstrapCluster (Raft self) servers' in
      match ferr with
      | Some err =>
          (mkController (bootstrapped self) servers' (MinClusterSize self) raft',
           Some (Wrap err "failed to bootstrap cluster"),
           [CallBootstrapCluster servers'])
      | None =>
          (mkController true servers' (MinClusterSize self) raft',
           None,
           [CallBootstrapCluster servers'])
      end
    else (self1, None, []).

(** A sequence of [Join] calls, each under the lock, with the errors
    returned and all calls made, in order. *)
Fixpoint JoinAll (self : Controller) (reqs : list JoinRequest)
  : Controller * list (option error) * list JoinEffect :=
  match reqs with
  | [] => (self, [], [])
  | req :: rest =>
      let '(self1, err, eff) := Join self req in
      let '(self2, errs, effs) := JoinAll self1 rest in
      (self2, err :: errs, eff ++ effs)
  end.

End Join.

Arguments bootstrapped {raftT} _.
Arguments servers {raftT} _.
Arguments MinClusterSize {raftT} _.
Arguments Raft {raftT} _.
Arguments mkController {raftT} _ _ _ _.

(** *** Dispatch *)

(** A [command.Command]. [Validate] is [Some v] when the command implements
    [command.Validatable], [v] being what [Validate()] returns ([None] is
    nil); [Encode] is the result of [Encode()]. *)
Record Command : Type := mkCommand {
  Validate : option (option error);
  Encode : error + list byte
}.

(** What [f.Response()] of a raft apply future holds. *)
Inductive ApplyValue : Type :=
| ValNil
| ValError (err : error)
| ValOther.

(** A reply [channel.Message]. *)
Record Reply : Type := mkReply {
  ContentType : Z;                    (* int32 *)
  GetUint32Header : Z -> option Z;    (* header key to value, when present *)
  Body : list byte
}.

(** Interactions of [Dispatch] with the command encoder, the raft instance,
    the mesh and the FSM decoders. *)
Inductive DispatchEffect : Type :=
| ReadRaftState                                   (* Raft.State() *)
| ReadLeaderWithID                                (* Raft.LeaderWithID() *)
| CallGetOrConnectPeer (addr : string)
| CallEncode
| CallRaftApply (log : list byte)
| CallSendForReply (contentType : Z) (body : list byte)
| CallDecode (encoded : list byte).

(** A step of the dispatch path: an error or a value, and the interactions
    performed so far. *)
Definition Act (A : Type) : Type := ((error + A) * list DispatchEffect)%type.

Definition ret {A : Type} (a : A) : Act A := (inr a, []).

Definition fail {A : Type} (e : error) : Act A := (inl e, []).

Definition perform {A : Type} (ev : DispatchEffect) (r : error + A) : Act A :=
  (r, [ev]).

Definition andThen {A B : Type} (m : Act A) (k : A -> Act B) : Act B :=
  match m with
  | (inl e, t) => (inl e, t)
  | (inr a, t) => let '(r, t') := k a in (r, t ++ t')
  end.

Notation "x <~ m ;; k" := (andThen m (fun x => k))
  (at level 61, m at next level, right associativity).

Section Dispatch.

(** Content types and header keys of the package, declared outside the
    sources at hand. *)
Variables NewLogEntryType SuccessResponseType ErrorResponseType : Z.
Variables HeaderErrorCode ErrorCodeApiError : Z.

Variable Peer : Type.

(** The collaborators of [Dispatch]. *)
Record Env : Type := mkEnv {
  IsLeader : bool;                                  (* Raft.State() == raft.Leader *)
  LeaderAddr : string;                              (* address of Raft.LeaderWithID() *)
  GetOrConnectPeer : string -> error + Peer;
  RaftApply : list byte -> error + ApplyValue;      (* f.Error(), f.Response() *)
  SendForReply : Peer -> Z -> list byte -> error + Reply;
  Decode : list byte -> option error;               (* Fsm.decoders.Decode *)
  Unmarshal : list byte -> option error             (* json.Unmarshal into an ApiError *)
}.

Variable env : Env.

Definition ApplyWithTimeout (log : list byte) : Act ApplyValue :=
  perform (CallRaftApply log) (RaftApply env log).

Definition ApplyEncodedCommand (encoded : list byte) : Act unit :=
  val <~ ApplyWithTimeout encoded ;;
  match val with
  | ValError err => fail err
  | ValNil => ret tt
  | ValOther =>
      perform (CallDecode encoded)
        match Decode env encoded with
        | Some err => inl err
        | None => inr tt
        end
  end.

Definition applyCommand (cmd : Command) : Act unit :=
  encoded <~ perform CallEncode (Encode cmd) ;;
  ApplyEncodedCommand encoded.

Definition interpretReply (result : Reply) : Act unit :=
  if ContentType result =? SuccessResponseType then ret tt
  else if ContentType result =? ErrorResponseType then
    match GetUint32Header result HeaderErrorCode with
    | Some errCode =>
        if errCode =? ErrorCodeApiError then
          match Unmarshal env (Body result) with
          | Some err => fail (Wrap err "unable to decode api error response")
          | None => fail (ApiError (Body result))
          end
        else fail (Errorf (string_of_list_byte (Body result)))
    | None => fail (Errorf (string_of_list_byte (Body result)))
    end
  else fail (Errorf "unexpected response type").

Definition Dispatch (cmd : Command) : option error * list DispatchEffect :=
  match Validate cmd with
  | Some (Some err) => (Some err, [])
  | _ =>
      let run : Act unit :=
        leader <~ perform ReadRaftState (inr (IsLeader env)) ;;
        if leader : bool then applyCommand cmd
        else
          addr <~ perform ReadLeaderWithID (inr (LeaderAddr env)) ;;
          peer <~ perform (CallGetOrConnectPeer addr) (GetOrConnectPeer env addr) ;;
          encoded <~ perform CallEncode (Encode cmd) ;;
          result <~ perform (CallSendForReply NewLogEntryType encoded)
                            (SendForReply env peer NewLogEntryType encoded) ;;
          interpretReply result
      in
      match run with
      | (inl err, t) => (Some err, t)
      | (inr _, t) => (None, t)
      end
  end.

End Dispatch.

Arguments IsLeader {Peer} _.
Arguments LeaderAddr {Peer} _.
Arguments GetOrConnectPeer {Peer} _ _.
Arguments RaftApply {Peer} _ _.
Arguments SendForReply {Peer} _ _ _ _.
Arguments Decode {Peer} _ _.
Arguments Unmarshal {Peer} _ _.

End Controller.

(** ** Trace toggling ([trace/channel_peekhandler.go]) *)

Module Trace.

Section Toggle.

(** [SourceType] and its constant [SourceTypePipe] are declared outside the
    sources at hand; the handler only compares source types for equality. *)
Variable SourceType : Type.
Variable SourceTypePipe : SourceType.
Variable SourceType_eqb : SourceType -> SourceType -> bool.

(** [SourceMatcher]: the interface method [Matches(name) bool]. *)
Definition SourceMatcher : Type := string -> bool.

(** The handler's fields that tracing control reads or writes:
    [LogicalName] is [handler.ch.LogicalName()]. *)
Record ChannelPeekHandler : Type := mkHandler {
  appId : string;
  LogicalName : string;
  enabled : bool
}.

Record ToggleApplyResultImpl : Type := mkToggleResult {
  matched : bool;
  message : string
}.

Definition showBool (b : bool) : string := if b then "true" else "false".

Definition enable (handler : ChannelPeekHandler) (enabled : bool)
  : ChannelPeekHandler :=
  mkHandler (appId handler) (LogicalName handler) true.

Definition IsEnabled (handler : ChannelPeekHandler) : bool := enabled handler.

(** [ToggleTracing]: the handler afterwards and the result sent on
    [resultChan]. *)
Definition ToggleTracing (handler : ChannelPeekHandler) (sourceType : SourceType)
    (matcher : SourceMatcher) (enable_ : bool)
  : ChannelPeekHandler * ToggleApplyResultImpl :=
  let name := LogicalName handler in
  let matched := SourceType_eqb sourceType SourceTypePipe && matcher name in
  let prevState := IsEnabled handler in
  let handler' := if matched then enable handler enable_ else handler in
  let nextState := if matched then enable_ else prevState in
  (handler',
   mkToggleResult matched
     ("Link " ++ appId handler ++ "." ++ name ++ " matched? " ++ showBool matched
      ++ ". Old trace state: " ++ showBool prevState
      ++ ", New trace state: " ++ showBool nextState)).

Definition EnableTracing (handler : ChannelPeekHandler) (sourceType : SourceType)
    (matcher : SourceMatcher) : ChannelPeekHandler * ToggleApplyResultImpl :=
  ToggleTracing handler sourceType matcher true.

Definition DisableTracing (handler : ChannelPeekHandler) (sourceType : SourceType)
    (matcher : SourceMatcher) : ChannelPeekHandler * ToggleApplyResultImpl :=
  ToggleTracing handler sourceType matcher false.

End Toggle.

End Trace.

(** ** Sending and receiving link messages ([router/xlink_transwarp/message.go]) *)

Module Link.

Definition timeoutSeconds : Z := 5.

(** Calls made on the UDP connection, in order. *)
Inductive ConnCall : Type :=
| SetWriteDeadline (seconds : Z)
| WriteToUDP (data : list byte)
| SetReadDeadline (seconds : Z)
| ReadFromUDP.

(** What the connection answers: the error of each deadline call and of the
    write ([None] is nil), and the outcome of [ReadFromUDP], an error or the
    datagram that arrived. *)
Record Conn : Type := mkConn {
  writeDeadlineErr : option string;
  writeToUDPErr : option string;
  readDeadlineErr : option string;
  incoming : string + list byte
}.

Definition sent : Type := (result unit * list ConnCall)%type.

Definition writeHello (token : list byte) (conn : Conn) : sent :=
  match encodeMessage (helloMessage token) with
  | Err e => (Err ("error creating message (" ++ e ++ ")"), [])
  | Panic => (Panic, [])
  | Ok data =>
      match writeDeadlineErr conn with
      | Some e =>
          (Err ("unable to set write deadline (" ++ e ++ ")"),
           [SetWriteDeadline timeoutSeconds])
      | None =>
          match writeToUDPErr conn with
          | Some e =>
              (Err e, [SetWriteDeadline timeoutSeconds; WriteToUDP (elems data)])
          | None =>
              (Ok tt, [SetWriteDeadline timeoutSeconds; WriteToUDP (elems data)])
          end
      end
  end.

Definition writePing (sequence : Z) (conn : Conn) (replyFor : Z) : sent :=
  match encodeMessage (pingMessage sequence replyFor) with
  | Err e => (Err ("error creating message (" ++ e ++ ")"), [])
  | Panic => (Panic, [])
  | Ok data =>
      match writeDeadlineErr conn with
      | Some e =>
          (Err ("unable to set write deadline (" ++ e ++ ")"),
           [SetWriteDeadline timeoutSeconds])
      | None =>
          match writeToUDPErr conn with
          | Some e =>
              (Err e, [SetWriteDeadline timeoutSeconds; WriteToUDP (elems data)])
          | None =>
              (Ok tt, [SetWriteDeadline timeoutSeconds; WriteToUDP (elems data)])
          end
      end
  end.

(** The receive buffer [data] after [ReadFromUDP] has stored a datagram in a
    fresh [make([]byte, MaxPacketSize)]: the [n] bytes that fit, then zeros. *)
Definition received (MaxPacketSize : nat) (datagram : list byte) : nat * list byte :=
  let n := Nat.min (length datagram) MaxPacketSize in
  (n, firstn n datagram ++ repeat x00 (MaxPacketSize - n)).

(** [readMessage]; [udp.MaxPacketSize] is a constant of another package.
    The sender's address, which the decoding error quotes, is left out of
    its text. *)
Definition readMessage (MaxPacketSize : nat) (conn : Conn)
  : result message * list ConnCall :=
  match readDeadlineErr conn with
  | Some e => (Err ("error setting read deadline (" ++ e ++ ")"), [SetReadDeadline 5])
  | None =>
      match incoming conn with
      | inl e => (Err e, [SetReadDeadline 5; ReadFromUDP])
      | inr datagram =>
          let '(n, data) := received MaxPacketSize datagram in
          (wrapErr "error decoding message"
             (d <- reslice (ofList data) 0 (Z.of_nat n) ;; decodeMessage d),
           [SetReadDeadline 5; ReadFromUDP])
      end
  end.

End Link.

(** ** The node id file ([Controller.initializeId], [controller/raft/raft.go]) *)

Module NodeId.

Import Controller.

(** The file [DataDir/id] as [os.Stat] and [os.ReadFile] see it: absent
    ([fs.ErrNotExist]), readable with a content, or failing to be read. *)
Inductive IdFile : Type :=
| Absent
| Present (content : string)
| Unreadable (err : error).

Section InitializeId.

(** [uuid.NewString()] and [os.WriteFile(idFile, ...)]: the file afterwards
    and the error returned. *)
Variable newUuid : string.
Variable WriteFile : string -> IdFile * option error.

(** The new [tempId], the id file afterwards and the error returned. *)
Definition initializeId (tempId : string) (idFile : IdFile)
  : string * IdFile * option error :=
  match idFile with
  | Absent =>
      let tempId' := if String.eqb tempId "" then newUuid else tempId in
      let '(idFile', err) := WriteFile tempId' in
      (tempId', idFile', err)
  | Unreadable err => (tempId, idFile, Some err)
  | Present id =>
      if negb (String.eqb tempId "") && negb (String.eqb tempId id) then
        (tempId, idFile,
         Some (Errorf ("instance already initialized with id " ++ id
                       ++ ". specified id " ++ tempId ++ " does not match")))
      else (id, idFile, None)
  end.

End InitializeId.

(** A write that does what it reports: when it returns nil the file holds
    the bytes written. *)
Definition honest (WriteFile : string -> IdFile * option error) : Prop :=
  forall s f, WriteFile s = (f, None) -> f = Present s.

End NodeId.

(** Interactions of [Dispatch] that apply a command to the local raft log
    and decode it again, and interactions that forward it to the leader. *)
Definition isLocalApply (ev : Controller.DispatchEffect) : bool :=
  match ev with
  | Controller.CallRaftApply _ | Controller.CallDecode _ => true
  | _ => false
  end.

Definition isForward (ev : Controller.DispatchEffect) : bool :=
  match ev with
  | Controller.ReadLeaderWithID
  | Controller.CallGetOrConnectPeer _
  | Controller.CallSendForReply _ _ => true
  | _ => false
  end.

(** A command that has no validation or passes it. *)
Definition valid (cmd : Controller.Command) : Prop :=
  Controller.Validate cmd = None \/ Controller.Validate cmd = Some None.

(** A join request that passes the two checks at the head of [Join]. *)
Definition complete (req : Controller.JoinRequest) : Prop :=
  Controller.Id req <> EmptyString /\ Controller.Addr req <> EmptyString.

(** ** Tracing channel messages ([trace/channel_peekhandler.go]) *)

Module TracePeek.

Import Trace.

(** The parts of a [channel.Message] that [trace] reads. *)
Record Message : Type := mkMessage {
  ContentType : Z;     (* int32 *)
  Sequence : Z;        (* int32 *)
  ReplyFor : Z;        (* int32 *)
  Body : list byte
}.

(** [channel.TraceMessageDecoder]: [Decode(msg)] returns the text and whether
    the decoder knows the message. *)
Definition TraceMessageDecoder : Type := Message -> option (list byte).

(** [trace_pb.ChannelMessage]. *)
Record ChannelMessage : Type := mkChannelMessage {
  Timestamp : Z;
  Identity : string;
  Channel : string;
  IsRx : bool;
  MsgContentType : Z;
  MsgSequence : Z;
  MsgReplyFor : Z;
  Length : Z;
  Decode : list byte
}.

(** [ctrl_pb.ContentType_TraceEventType], from the ctrl protocol file. *)
Definition ContentType_TraceEventType : Z := 1010.

(** The loop over [handler.decoders]: the text of the first decoder that
    knows the message, nil when none does. *)
Fixpoint firstDecode (decoders : list TraceMessageDecoder) (msg : Message)
  : list byte :=
  match decoders with
  | [] => []
  | decoder :: rest =>
      match decoder msg with
      | Some str => str
      | None => firstDecode rest msg
      end
  end.

Section Trace.

(** [mgmt_pb.ContentType_StreamTracesEventType] is declared outside the
    sources at hand. *)
Variable ContentType_StreamTracesEventType : Z.

(** [handler.decoders], and [time.Now().UnixNano()] at the call. *)
Variable decoders : list TraceMessageDecoder.
Variable now : Z.

(** [trace]: the event handed to [eventSink.Accept], if any. [ch] is the
    logical name of the channel passed in. *)
Definition trace (handler : ChannelPeekHandler) (msg : Message) (ch : string)
    (rx : bool) : option ChannelMessage :=
  if negb (IsEnabled handler)
     || (ContentType msg =? toInt32 ContentType_TraceEventType)
     || (ContentType msg =? toInt32 ContentType_StreamTracesEventType)
  then None
  else
    Some (mkChannelMessage now (appId handler) ch rx (ContentType msg)
            (Sequence msg) (ReplyFor msg)
            (toInt32 (Z.of_nat (length (Body msg))))
            (firstDecode decoders msg)).

Definition Rx (handler : ChannelPeekHandler) (msg : Message) (ch : string)
  : option ChannelMessage := trace handler msg ch false.

Definition Tx (handler : ChannelPeekHandler) (msg : Message) (ch : string)
  : option ChannelMessage := trace handler msg ch true.

End Trace.

(** [NewChannelPeekHandler]: the handler registered with
    [controller.AddSource]; [ch] is the logical name of its channel. *)
Definition NewChannelPeekHandler (appId ch : string) : ChannelPeekHandler :=
  mkHandler appId ch false.

(** One call of [EnableTracing] or [DisableTracing]. *)
Record Toggle (SourceType : Type) : Type := mkToggle {
  toggleSource : SourceType;
  toggleMatcher : SourceMatcher;
  toggleEnable : bool
}.

Arguments mkToggle {SourceType} _ _ _.
Arguments toggleSource {SourceType} _.
Arguments toggleMatcher {SourceType} _.
Arguments toggleEnable {SourceType} _.

Section Toggles.

Variable SourceType : Type.
Variable SourceTypePipe : SourceType.
Variable SourceType_eqb : SourceType -> SourceType -> bool.

(** Whether a toggle matches a handler, the [matched] of [ToggleTracing]. *)
Definition toggleMatches (handler : ChannelPeekHandler) (t : Toggle SourceType)
  : bool :=
  SourceType_eqb (toggleSource t) SourceTypePipe
  && toggleMatcher t (LogicalName handler).

(** The handler after a sequence of toggle calls. *)
Fixpoint applyToggles (handler : ChannelPeekHandler) (ts : list (Toggle SourceType))
  : ChannelPeekHandler :=
  match ts with
  | [] => handler
  | t :: rest =>
      applyToggles
        (fst (ToggleTracing SourceType SourceTypePipe SourceType_eqb handler
                (toggleSource t) (toggleMatcher t) (toggleEnable t)))
        rest
  end.

End Toggles.

End TracePeek.

(** ** The new listener and the server certificates ([controller/config.go]) *)

Module ListenerCert.

(** [strings.Split(s, sep)] for a one-character separator. *)
Fixpoint Split (sep : Ascii.ascii) (s : string) : list string :=
  match s with
  | EmptyString => [EmptyString]
  | String c rest =>
      if Ascii.eqb c sep then EmptyString :: Split sep rest
      else match Split sep rest with
           | head :: tail => String c head :: tail
           | [] => [String c EmptyString]
           end
  end.

(** The number of separators in a string. *)
Fixpoint countSep (sep : Ascii.ascii) (s : string) : nat :=
  match s with
  | EmptyString => 0
  | String c rest => (if Ascii.eqb c sep then 1 else 0) + countSep sep rest
  end.

(** The fields of an [x509.Certificate] that are read, the addresses as
    their [String()]. *)
Record Certificate : Type := mkCertificate {
  DNSNames : list string;
  IPAddresses : list string
}.

(** A [*tls.Certificate] with its [Leaf], which may be nil. *)
Record TlsCertificate : Type := mkTlsCertificate {
  Leaf : option Certificate
}.

Definition inList (host : string) (l : list string) : bool :=
  existsb (String.eqb host) l.

(** The loop over [serverCerts]: the value of [hostFound] when it ends.
    Reading the fields of a nil [Leaf] is a fault. *)
Fixpoint findHost (host : string) (serverCerts : list TlsCertificate)
  : result bool :=
  match serverCerts with
  | [] => Ok false
  | serverCert :: rest =>
      match Leaf serverCert with
      | None => Panic
      | Some leaf =>
          if inList host (DNSNames leaf) then Ok true
          else if inList host (IPAddresses leaf) then Ok true
          else findHost host rest
      end
  end.

(** [verifyNewListenerInServerCert]: [addr] is [addr.String()] and
    [serverCerts] is [controllerConfig.Id.Identity.ServerCert()]. *)
Definition verifyNewListenerInServerCert (serverCerts : list TlsCertificate)
    (addr : string) : result unit :=
  let addrSplits := Split ":"%char addr in
  if (length addrSplits <? 3)%nat then
    Err "could not determine newListener's host value, expected at least three segments"
  else
    let host := nth 1 addrSplits EmptyString in
    if (length serverCerts =? 0)%nat then
      Err "could not verify newListener value, server certificate for identity contains no certificates"
    else
      hostFound <- findHost host serverCerts ;;
      if negb hostFound then
        Err ("could not find newListener [" ++ addr ++ "] host value [" ++ host
             ++ "] in first certificate for controller identity")
      else Ok tt.

End ListenerCert.

(** * Properties *)

(** ** Arithmetic of the little-endian layout *)

Section LittleEndian.

Lemma byteZ_range (b : byte) : 0 <= byteZ b < 256.
Proof.
  unfold byteZ. pose proof (Byte.to_N_bounded b) as H. lia.
Qed.

Lemma byteZ_toByte (z : Z) : byteZ (toByte z) = z mod 256.
Proof.
  unfold toByte, byteZ.
  assert (Hl : Z.land z 255 = z mod 256).
  { change 255 with (Z.ones 8). rewrite Z.land_ones by lia. reflexivity. }
  rewrite Hl.
  pose proof (Z.mod_pos_bound z 256 ltac:(lia)) as Hb.
  destruct (Byte.of_N (Z.to_N (z mod 256))) as [b|] eqn:E.
  - apply Byte.to_of_N in E. rewrite E. rewrite Z2N.id; lia.
  - apply Byte.of_N_None_iff in E. lia.
Qed.

Lemma toByte_byteZ (b : byte) : toByte (byteZ b) = b.
Proof.
  unfold toByte.
  assert (Hl : Z.land (byteZ b) 255 = byteZ b).
  { change 255 with (Z.ones 8). rewrite Z.land_ones by lia.
    apply Z.mod_small. apply byteZ_range. }
  rewrite Hl. unfold byteZ. rewrite N2Z.id, Byte.of_to_N. reflexivity.
Qed.

Lemma lor_shiftl_add (a b n : Z) :
  0 <= n -> 0 <= a < 2 ^ n -> Z.lor a (Z.shiftl b n) = a + b * 2 ^ n.
Proof.
  intros Hn Ha.
  assert (Hd : Z.land a (Z.shiftl b n) = 0).
  { apply Z.bits_inj'. intros i Hi.
    rewrite Z.land_spec, Z.bits_0.
    destruct (Z.ltb_spec i n) as [Hlt|Hge].
    - rewrite Z.shiftl_spec_low by lia. apply andb_false_r.
    - replace (Z.testbit a i) with false; [reflexivity|].
      symmetry. destruct (Z.eq_dec a 0) as [->|Hz]; [apply Z.bits_0|].
      apply Z.bits_above_log2; [lia|].
      apply Z.log2_lt_pow2; [lia|].
      apply Z.lt_le_trans with (2 ^ n); [lia|].
      apply Z.pow_le_mono_r; lia. }
  rewrite <- Z.lxor_lor by exact Hd.
  rewrite <- Z.add_nocarry_lxor by exact Hd.
  rewrite Z.shiftl_mul_pow2 by lia. reflexivity.
Qed.

Lemma putLE_length (n : nat) (z : Z) : length (putLE n z) = n.
Proof.
  revert z. induction n as [|n IH]; intros z; simpl; [reflexivity|].
  now rewrite IH.
Qed.

Lemma getLE_putLE (n : nat) (z : Z) :
  getLE (putLE n z) = z mod 2 ^ (8 * Z.of_nat n).
Proof.
  revert z. induction n as [|n IH]; intros z.
  - simpl. now rewrite Z.mod_1_r.
  - cbn [putLE getLE]. rewrite IH, byteZ_toByte.
    pose proof (Z.mod_pos_bound z 256 ltac:(lia)) as Hb.
    rewrite lor_shiftl_add by (change (2 ^ 8) with 256; lia).
    rewrite Z.shiftr_div_pow2 by lia.
    replace (8 * Z.of_nat (S n)) with (8 + 8 * Z.of_nat n) by lia.
    rewrite Z.pow_add_r by lia.
    change (2 ^ 8) with 256.
    rewrite Z.rem_mul_r by lia. lia.
Qed.

Lemma getLE_range (bs : list byte) :
  0 <= getLE bs < 2 ^ (8 * Z.of_nat (length bs)).
Proof.
  induction bs as [|b r IH].
  - simpl. lia.
  - cbn [getLE length]. pose proof (byteZ_range b) as Hb.
    rewrite lor_shiftl_add by (change (2 ^ 8) with 256; lia).
    replace (8 * Z.of_nat (S (length r))) with (8 * Z.of_nat (length r) + 8) by lia.
    rewrite Z.pow_add_r by lia. change (2 ^ 8) with 256. nia.
Qed.

Lemma toInt32_mod (z : Z) : int32_range z -> toInt32 (z mod 2 ^ 32) = z.
Proof.
  unfold int32_range, toInt32. intros Hz.
  rewrite Z.mod_mod by lia.
  destruct (Z_lt_le_dec z 0) as [Hneg|Hpos].
  - assert (E : z mod 2 ^ 32 = z + 2 ^ 32).
    { symmetry. apply Z.mod_unique with (q := -1); lia. }
    rewrite E. destruct (Z.ltb_spec (z + 2 ^ 32) (2 ^ 31)); lia.
  - rewrite Z.mod_small by lia.
    destruct (Z.ltb_spec z (2 ^ 31)); lia.
Qed.

End LittleEndian.

(** ** Slices: bounds that hold *)

Section SliceFacts.

Lemma index_in (s : slice) (i : Z) :
  0 <= i < len s -> index s i = Ok (nth (Z.to_nat i) (elems s) x00).
Proof.
  intros [H0 H1]. unfold index.
  apply Z.leb_le in H0. apply Z.ltb_lt in H1.
  now rewrite H0, H1.
Qed.

Lemma index_out (s : slice) (i : Z) : len s <= i -> index s i = Panic.
Proof.
  intros H. unfold index.
  destruct (Z.ltb_spec i (len s)); [lia|]. now rewrite andb_false_r.
Qed.

Lemma len_le_cap (s : slice) : len s <= cap s.
Proof.
  unfold len, cap, backing. rewrite length_app. lia.
Qed.

(** Re-slicing inside the visible part reads visible bytes only. *)
Lemma reslice_in (s : slice) (lo hi : Z) :
  0 <= lo <= hi -> hi <= len s ->
  exists sp,
    reslice s lo hi =
    Ok (mkSlice (firstn (Z.to_nat (hi - lo)) (skipn (Z.to_nat lo) (elems s))) sp).
Proof.
  intros [H0 H1] H2. unfold reslice.
  pose proof (len_le_cap s) as Hc.
  destruct (Z.leb_spec 0 lo); [|lia].
  destruct (Z.leb_spec lo hi); [|lia].
  destruct (Z.leb_spec hi (cap s)); [|lia].
  cbn [andb]. eexists. f_equal. f_equal.
  unfold backing, len in *.
  rewrite skipn_app, firstn_app, length_skipn.
  replace (Z.to_nat (hi - lo) - (length (elems s) - Z.to_nat lo))%nat with 0%nat by lia.
  cbn [firstn]. now rewrite app_nil_r.
Qed.

Lemma reslice_beyond_cap (s : slice) (lo hi : Z) :
  cap s < hi -> reslice s lo hi = Panic.
Proof.
  intros H. unfold reslice.
  destruct (Z.leb_spec hi (cap s)); [lia|]. now rewrite andb_false_r.
Qed.

Lemma reslice_inverted (s : slice) (lo hi : Z) :
  hi < lo -> reslice s lo hi = Panic.
Proof.
  intros H. unfold reslice.
  destruct (Z.leb_spec lo hi); [lia|]. now rewrite andb_false_r.
Qed.

Lemma reslice_not_Err (s : slice) (lo hi : Z) (e : string) :
  reslice s lo hi <> Err e.
Proof.
  unfold reslice.
  destruct ((0 <=? lo) && (lo <=? hi) && (hi <=? cap s)); discriminate.
Qed.

End SliceFacts.

(** ** The decoder on a buffer that holds a whole message section *)

Section DecodeHeader.

Lemma magicOk_iff (b0 b1 b2 b3 : byte) :
  magicOk b0 b1 b2 b3 = true <-> [b0; b1; b2; b3] = magicV1.
Proof.
  unfold magicOk, magicV1. rewrite !andb_true_iff. split.
  - intros [[[H0 H1] H2] H3].
    apply Byte.byte_dec_bl in H0, H1, H2, H3. now subst.
  - intros H. injection H as -> -> -> ->. repeat split; reflexivity.
Qed.

Lemma getLE2_uint16 (a b : byte) : toUint16 (getLE [a; b]) = getLE [a; b].
Proof.
  unfold toUint16. apply Z.mod_small.
  pose proof (getLE_range [a; b]) as H. cbn [length] in H.
  change (8 * Z.of_nat 2) with 16 in H. exact H.
Qed.

Variables b0 b1 b2 b3 b4 b5 b6 b7 b8 b9 b10 b11 b12 b13 b14 : byte.
Variables rest extra : list byte.

Local Abbreviation data :=
  (mkSlice (b0 :: b1 :: b2 :: b3 :: b4 :: b5 :: b6 :: b7 :: b8 :: b9 :: b10
               :: b11 :: b12 :: b13 :: b14 :: rest) extra).

Lemma decodeMessage_header :
  decodeMessage data =
  if magicOk b0 b1 b2 b3 then
    if getLE [b11; b12] =? 0 then
      p <- reslice data 15 (toUint16 (15 + getLE [b13; b14])) ;;
      Ok (mkMessage (toInt32 (getLE [b4; b5; b6; b7])) b8 b9 b10 0 0 (elems p))
    else Err "headers error"
  else Err "bad magic".
Proof.
  assert (Hlen : 15 <= len data) by (unfold len; cbn [elems length]; lia).
  unfold decodeMessage, messageSectionLength.
  destruct (Z.ltb_spec (len data) 15) as [|_]; [lia|].
  unfold magicV1, magicOk. cbn [checkMagic Z.add Pos.add Pos.succ].
  rewrite !index_in by lia.
  change (nth (Z.to_nat 0) (elems data) x00) with b0.
  change (nth (Z.to_nat 1) (elems data) x00) with b1.
  change (nth (Z.to_nat 2) (elems data) x00) with b2.
  change (nth (Z.to_nat 3) (elems data) x00) with b3.
  change (nth (Z.to_nat 8) (elems data) x00) with b8.
  change (nth (Z.to_nat 9) (elems data) x00) with b9.
  change (nth (Z.to_nat 10) (elems data) x00) with b10.
  cbn [bind].
  destruct (Byte.eqb b0 x01); [|reflexivity].
  destruct (Byte.eqb b1 x02); [|reflexivity].
  destruct (Byte.eqb b2 x02); [|reflexivity].
  destruct (Byte.eqb b3 x00); [|reflexivity].
  cbn [andb bind].
  destruct (reslice_in data 4 8 ltac:(lia) ltac:(lia)) as [sp1 ->].
  destruct (reslice_in data 11 13 ltac:(lia) ltac:(lia)) as [sp2 ->].
  destruct (reslice_in data 13 15 ltac:(lia) ltac:(lia)) as [sp3 ->].
  cbn [bind elems].
  change (Z.to_nat (8 - 4)) with 4%nat. change (Z.to_nat 4) with 4%nat.
  change (Z.to_nat (13 - 11)) with 2%nat. change (Z.to_nat 11) with 11%nat.
  change (Z.to_nat (15 - 13)) with 2%nat. change (Z.to_nat 13) with 13%nat.
  cbn [firstn skipn].
  unfold readInt32, readUint16, binaryRead.
  cbn [length Nat.ltb Nat.leb firstn bind wrapErr].
  rewrite !getLE2_uint16.
  destruct (Z.eqb_spec (getLE [b11; b12]) 0) as [E|E]; cbn [negb]; [|reflexivity].
  rewrite E. reflexivity.
Qed.

End DecodeHeader.

(** A buffer of at least [messageSectionLength] bytes has fifteen leading bytes. *)
Lemma elems_header (s : slice) :
  15 <= len s ->
  exists b0 b1 b2 b3 b4 b5 b6 b7 b8 b9 b10 b11 b12 b13 b14 rest,
    elems s = b0 :: b1 :: b2 :: b3 :: b4 :: b5 :: b6 :: b7 :: b8 :: b9 :: b10
                 :: b11 :: b12 :: b13 :: b14 :: rest.
Proof.
  unfold len. intros H.
  destruct (elems s) as [|b0 [|b1 [|b2 [|b3 [|b4 [|b5 [|b6 [|b7 [|b8 [|b9
    [|b10 [|b11 [|b12 [|b13 [|b14 rest]]]]]]]]]]]]]]];
    cbn [length] in H; try lia.
  repeat eexists.
Qed.

Lemma frame_length (m : message) :
  Z.of_nat (length (frame m)) = 15 + Z.of_nat (length (payload m)).
Proof.
  unfold frame, magicV1. rewrite !length_app, !putLE_length. cbn [length]. lia.
Qed.

(** ** The wire codec *)

Section Codec.

(** C8. Encoding the Hello that [writeHello] builds for the identity token
    "abc" (sequence -1, fragment 0, ofFragments 1, type Hello, headersLength 0)
    gives exactly the 18 bytes
    01 02 02 00 FF FF FF FF 00 01 00 00 00 03 00 61 62 63. *)
Theorem encode_hello_abc :
  encodeMessage (helloMessage [x61; x62; x63]) =
  Ok (ofList [x01; x02; x02; x00; xff; xff; xff; xff; x00; x01; x00;
              x00; x00; x03; x00; x61; x62; x63]).
Proof. vm_compute. reflexivity. Qed.

(** The size check of [encodeMessage], in terms of the payload. *)
Lemma encodeMessage_eq (m : message) :
  encodeMessage m =
    if 1457 <? Z.of_nat (length (payload m))
    then Err "message too long"
    else Ok (ofList (frame m)).
Proof.
  pose proof (frame_length m) as Hf.
  unfold encodeMessage, mss, len, ofList. cbn [elems]. rewrite Hf.
  destruct (Z.ltb_spec 1472 (15 + Z.of_nat (length (payload m))));
    destruct (Z.ltb_spec 1457 (Z.of_nat (length (payload m)))); try lia;
    reflexivity.
Qed.

(** C5. [encodeMessage] returns an error exactly when the frame (15 header
    bytes plus the payload) is longer than 1472 bytes, that is when the
    payload is longer than 1457 bytes; otherwise it returns the frame. *)
Theorem encodeMessage_size_bound (m : message) :
  Z.of_nat (length (frame m)) = 15 + Z.of_nat (length (payload m)) /\
  ((exists e, encodeMessage m = Err e) <-> 1472 < Z.of_nat (length (frame m))) /\
  ((exists e, encodeMessage m = Err e) <-> 1457 < Z.of_nat (length (payload m))) /\
  encodeMessage m =
    if 1457 <? Z.of_nat (length (payload m))
    then Err "message too long"
    else Ok (ofList (frame m)).
Proof.
  pose proof (frame_length m) as Hf.
  split; [exact Hf|]. rewrite (encodeMessage_eq m).
  destruct (Z.ltb_spec 1457 (Z.of_nat (length (payload m)))) as [Hl|Hs].
  - repeat split; try lia; intros _; eexists; reflexivity.
  - repeat split; try lia; intros [e He]; discriminate He.
Qed.

(** C4. [decodeMessage] returns an error (and no message) on every buffer
    that is shorter than 15 bytes, or whose first four bytes are not the
    magic 01 02 02 00, or whose headers-length field (offsets 11-12) is not
    zero. *)
Theorem decodeMessage_rejects (data : slice) :
  len data < 15 \/
  firstn 4 (elems data) <> magicV1 \/
  getLE (firstn 2 (skipn 11 (elems data))) <> 0 ->
  exists e, decodeMessage data = Err e.
Proof.
  intros H.
  destruct (Z.ltb_spec (len data) 15) as [Hshort|Hlong].
  - exists "short read"%string. unfold decodeMessage, messageSectionLength.
    destruct (Z.ltb_spec (len data) 15); [reflexivity|lia].
  - destruct H as [H|H]; [lia|].
    destruct (elems_header data Hlong)
      as (b0 & b1 & b2 & b3 & b4 & b5 & b6 & b7 & b8 & b9 & b10 & b11 & b12
          & b13 & b14 & rest & E).
    destruct data as [el sp]. cbn [elems] in *. subst el.
    rewrite decodeMessage_header.
    cbn [firstn skipn] in H.
    destruct (magicOk b0 b1 b2 b3) eqn:Hm; [|eexists; reflexivity].
    apply magicOk_iff in Hm.
    destruct H as [H|H]; [contradiction|].
    destruct (Z.eqb_spec (getLE [b11; b12]) 0); [contradiction|].
    eexists; reflexivity.
Qed.

Lemma decodeMessage_rejects_witness :
  exists e, decodeMessage (ofList [x01; x02; x02; x00; x05]) = Err e.
Proof.
  apply decodeMessage_rejects. left. vm_compute. reflexivity.
Defined.

(** With a whole message section, a good magic and a zero headers length,
    the decoder has no error branch left: it returns a message or faults. *)
Lemma decodeMessage_valid_header_not_Err (data : slice) (e : string) :
  15 <= len data ->
  firstn 4 (elems data) = magicV1 ->
  getLE (firstn 2 (skipn 11 (elems data))) = 0 ->
  decodeMessage data <> Err e.
Proof.
  intros Hlong Hm Hh.
  destruct (elems_header data Hlong)
    as (b0 & b1 & b2 & b3 & b4 & b5 & b6 & b7 & b8 & b9 & b10 & b11 & b12
        & b13 & b14 & rest & E).
  destruct data as [el sp]. cbn [elems] in *. subst el.
  rewrite decodeMessage_header. cbn [firstn skipn] in Hm, Hh.
  apply magicOk_iff in Hm. rewrite Hm, Hh. cbn [Z.eqb].
  match goal with |- context [reslice ?s ?lo ?hi] =>
    pose proof (reslice_not_Err s lo hi e) as Hr;
    destruct (reslice s lo hi) end; cbn [bind]; congruence.
Qed.

(** A declared payload length that reaches past the capacity of the buffer
    makes the payload slice expression fault. *)
Lemma decodeMessage_payload_beyond_cap (data : slice) :
  15 <= len data ->
  firstn 4 (elems data) = magicV1 ->
  getLE (firstn 2 (skipn 11 (elems data))) = 0 ->
  cap data < 15 + getLE (firstn 2 (skipn 13 (elems data))) ->
  decodeMessage data = Panic.
Proof.
  intros Hlong Hm Hh Hp.
  destruct (elems_header data Hlong)
    as (b0 & b1 & b2 & b3 & b4 & b5 & b6 & b7 & b8 & b9 & b10 & b11 & b12
        & b13 & b14 & rest & E).
  destruct data as [el sp]. cbn [elems] in *. subst el.
  rewrite decodeMessage_header. cbn [firstn skipn] in Hm, Hh, Hp.
  apply magicOk_iff in Hm. rewrite Hm, Hh. cbn [Z.eqb].
  pose proof (getLE_range [b13; b14]) as Hr. cbn [length] in Hr.
  change (2 ^ (8 * Z.of_nat 2)) with 65536 in Hr.
  set (pl := getLE [b13; b14]) in *.
  unfold toUint16. change (2 ^ 16) with 65536.
  destruct (Z_lt_le_dec (15 + pl) 65536) as [Hs|Hw].
  - rewrite Z.mod_small by lia.
    rewrite reslice_beyond_cap by exact Hp. reflexivity.
  - assert (Ew : (15 + pl) mod 65536 = 15 + pl - 65536).
    { symmetry. apply Z.mod_unique with (q := 1); lia. }
    rewrite Ew, reslice_inverted by lia. reflexivity.
Qed.

(** C7. There is a buffer of at least 15 bytes, with the magic prefix and a
    zero headers length, whose declared payload length exceeds the bytes left
    after the header, on which [decodeMessage] returns no error: slicing the
    payload at offset 15 is out of range and the call faults. *)
Theorem decodeMessage_not_total :
  exists data : slice,
    15 <= len data /\
    firstn 4 (elems data) = magicV1 /\
    getLE (firstn 2 (skipn 11 (elems data))) = 0 /\
    len data - 15 < getLE (firstn 2 (skipn 13 (elems data))) /\
    decodeMessage data = Panic /\
    (forall e, decodeMessage data <> Err e) /\
    (forall m, decodeMessage data <> Ok m).
Proof.
  exists (ofList [x01; x02; x02; x00; xff; xff; xff; xff; x00; x01; x00;
                  x00; x00; x03; x00]).
  assert (E : decodeMessage
                (ofList [x01; x02; x02; x00; xff; xff; xff; xff; x00; x01; x00;
                         x00; x00; x03; x00]) = Panic)
    by (vm_compute; reflexivity).
  rewrite E.
  repeat split; try (vm_compute; congruence); discriminate.
Qed.

End Codec.

(** ** Encoding followed by decoding *)

Section RoundTrip.

(** What [decodeMessage] returns on the frame of [m]: the decoder assigns
    [sequence], [fragment], [ofFragments], [messageType], [headersLength]
    and [payload]. *)
Lemma decode_frame (m : message) :
  int32_range (sequence m) ->
  Z.of_nat (length (payload m)) <= 1457 ->
  decodeMessage (ofList (frame m)) =
  Ok (mkMessage (sequence m) (fragment m) (ofFragments m) (messageType m)
                0 0 (payload m)).
Proof.
  intros Hseq Hlen.
  pose proof (getLE_putLE 4 (sequence m)) as Hs.
  pose proof (getLE_putLE 2 (toUint16 (Z.of_nat (length (payload m))))) as Hp.
  unfold frame, magicV1, ofList in *. cbn [putLE app] in *.
  rewrite decodeMessage_header.
  change (magicOk x01 x02 x02 x00) with true.
  change (getLE [toByte 0; toByte (Z.shiftr 0 8)] =? 0) with true.
  cbv iota. rewrite Hs, Hp.
  change (8 * Z.of_nat 4) with 32. change (8 * Z.of_nat 2) with 16.
  rewrite toInt32_mod by exact Hseq.
  unfold toUint16. change (2 ^ 16) with 65536.
  rewrite Z.mod_mod by lia.
  rewrite (Z.mod_small (Z.of_nat (length (payload m)))) by lia.
  rewrite (Z.mod_small (15 + _)) by lia.
  match goal with |- context [reslice ?s 15 ?hi] =>
    destruct (reslice_in s 15 hi) as [sp ->] end.
  - lia.
  - unfold len. cbn [elems length]. lia.
  - cbn [bind elems].
    replace (Z.to_nat (15 + Z.of_nat (length (payload m)) - 15))
      with (length (payload m)) by lia.
    change (Z.to_nat 15) with 15%nat. cbn [skipn].
    now rewrite firstn_all.
Qed.

(** Round trip of the fields the decoder assigns. For every message [m]
    whose payload is at most 1457 bytes long, encoding succeeds and decoding
    the encoded bytes yields a message equal to [m] in [sequence],
    [fragment], [ofFragments], [messageType] and [payload], with
    [headersLength] 0. *)
Theorem decode_encode_roundtrip (m : message) :
  int32_range (sequence m) ->
  Z.of_nat (length (payload m)) <= 1457 ->
  exists (buf : slice) (m' : message),
    encodeMessage m = Ok buf /\
    decodeMessage buf = Ok m' /\
    sequence m' = sequence m /\
    fragment m' = fragment m /\
    ofFragments m' = ofFragments m /\
    messageType m' = messageType m /\
    payload m' = payload m /\
    headersLength m' = 0.
Proof.
  intros Hseq Hlen.
  pose proof (encodeMessage_eq m) as He.
  destruct (Z.ltb_spec 1457 (Z.of_nat (length (payload m)))) as [|_]; [lia|].
  eexists. eexists. split; [exact He|].
  split; [apply decode_frame; assumption|].
  cbn. repeat split; reflexivity.
Qed.

Lemma decode_encode_roundtrip_witness :
  exists (buf : slice) (m' : message),
    encodeMessage (pingMessage 7 (-1)) = Ok buf /\
    decodeMessage buf = Ok m' /\
    sequence m' = 7 /\
    fragment m' = x00 /\
    ofFragments m' = x01 /\
    messageType m' = Ping /\
    payload m' = [xff; xff; xff; xff] /\
    headersLength m' = 0.
Proof.
  apply (decode_encode_roundtrip (pingMessage 7 (-1))).
  - unfold int32_range. simpl. lia.
  - simpl. lia.
Defined.

(** The round trip of whole messages fails on the Hello that [writeHello]
    builds for the token "abc": the decoded message has [payloadLength] 0,
    not 3. *)
Lemma decode_encode_roundtrip_counterexample :
  ~ (forall m : message,
       Z.of_nat (length (payload m)) <= 1457 ->
       exists buf, encodeMessage m = Ok buf /\ decodeMessage buf = Ok m).
Proof.
  intros H.
  destruct (H (helloMessage [x61; x62; x63])) as (buf & He & Hd).
  - simpl. lia.
  - vm_compute in He. injection He as <-.
    vm_compute in Hd. discriminate Hd.
Qed.

(** C2 (code at the failing input). The Hello that [writeHello] builds for
    the token "abc" has [payloadLength] 3 and a three-byte payload; it
    encodes, and the encoded bytes decode to a message that agrees with it in
    [sequence], [fragment], [ofFragments], [messageType], [headersLength]
    and [payload] but has [payloadLength] 0: [decodeMessage] reads the
    payload length of the frame and never assigns it to the message. *)
Theorem decode_encode_hello_payloadLength :
  exists (buf : slice) (m' : message),
    encodeMessage (helloMessage [x61; x62; x63]) = Ok buf /\
    decodeMessage buf = Ok m' /\
    payloadLength (helloMessage [x61; x62; x63]) = 3 /\
    payloadLength m' = 0 /\
    m' <> helloMessage [x61; x62; x63] /\
    sequence m' = sequence (helloMessage [x61; x62; x63]) /\
    fragment m' = fragment (helloMessage [x61; x62; x63]) /\
    ofFragments m' = ofFragments (helloMessage [x61; x62; x63]) /\
    messageType m' = messageType (helloMessage [x61; x62; x63]) /\
    headersLength m' = headersLength (helloMessage [x61; x62; x63]) /\
    payload m' = payload (helloMessage [x61; x62; x63]).
Proof.
  exists (ofList [x01; x02; x02; x00; xff; xff; xff; xff; x00; x01; x00;
                  x00; x00; x03; x00; x61; x62; x63]).
  exists (mkMessage (-1) x00 x01 Hello 0 0 [x61; x62; x63]).
  repeat split; try (vm_compute; reflexivity).
  vm_compute. discriminate.
Qed.

End RoundTrip.

(** ** Dispatch of decoded messages *)

Section HandlerDispatch.

Lemma readInt32_short (data : list byte) :
  (length data < 4)%nat -> exists e, readInt32 data = Err e.
Proof.
  intros H. unfold readInt32, binaryRead.
  destruct data as [|b r]; [eexists; reflexivity|].
  destruct (Nat.ltb_spec (length (b :: r)) 4) as [_|Hge]; [|lia].
  eexists; reflexivity.
Qed.

Lemma readInt32_enough (data : list byte) :
  (4 <= length data)%nat ->
  readInt32 data = Ok (toInt32 (getLE (firstn 4 data))).
Proof.
  intros H. unfold readInt32, binaryRead.
  destruct data as [|b r]; [cbn [length] in H; lia|].
  destruct (Nat.ltb_spec (length (b :: r)) 4) as [Hlt|_]; [lia|].
  reflexivity.
Qed.

(** C6 (as amended). [handleHello] returns an error without calling
    [HandleHello] when the message is not a Hello, or its sequence is not -1,
    or it is not a single fragment ([fragment] is not 0 or [ofFragments] is
    not 1); otherwise it calls [HandleHello] once, with the identity token
    taken from the payload, and returns nil. *)
Theorem handleHello_validation (m : message) :
  (messageType m = Hello /\ sequence m = -1 /\
   fragment m = x00 /\ ofFragments m = x01 /\
   handleHello (Some m) = (Ok tt, [HandleHello (payload m)]))
  \/
  ((messageType m <> Hello \/ sequence m <> -1 \/
    fragment m <> x00 \/ ofFragments m <> x01) /\
   exists e, handleHello (Some m) = (Err e, [])).
Proof.
  unfold handleHello.
  destruct (Byte.eqb (messageType m) Hello) eqn:Et.
  2:{ right. split; [left; now apply Byte.eqb_false|eexists; reflexivity]. }
  apply Byte.byte_dec_bl in Et.
  destruct (Z.eqb_spec (sequence m) (-1)) as [Es|Es]; cbn [negb].
  2:{ right. split; [right; left; exact Es|eexists; reflexivity]. }
  destruct (Byte.eqb (fragment m) x00) eqn:Ef; cbn [negb orb].
  2:{ right. split; [|eexists; reflexivity].
      right; right; left. now apply Byte.eqb_false. }
  apply Byte.byte_dec_bl in Ef.
  destruct (Byte.eqb (ofFragments m) x01) eqn:Eo; cbn [negb].
  2:{ right. split; [|eexists; reflexivity].
      right; right; right. now apply Byte.eqb_false. }
  apply Byte.byte_dec_bl in Eo.
  left. repeat split; assumption.
Qed.

(** C6 (as stated) fails on a Hello with sequence -1, [ofFragments] 1 and
    [fragment] 1: none of the three listed conditions holds, and
    [handleHello] still rejects it. *)
Lemma handleHello_counterexample :
  ~ (forall m : message,
       (messageType m <> Hello \/ sequence m <> -1 \/ ofFragments m <> x01 ->
        exists e, handleHello (Some m) = (Err e, [])) /\
       (~ (messageType m <> Hello \/ sequence m <> -1 \/ ofFragments m <> x01) ->
        handleHello (Some m) = (Ok tt, [HandleHello (payload m)]))).
Proof.
  intros H.
  destruct (H (mkMessage (-1) x01 x01 Hello 0 0 [x61; x62; x63])) as [_ H2].
  cbn in H2.
  assert (Hc : handleHello (Some (mkMessage (-1) x01 x01 Hello 0 0 [x61; x62; x63]))
               = (Ok tt, [HandleHello [x61; x62; x63]])).
  { apply H2. intros [Ht|[Hs|Ho]]; [apply Ht|apply Hs|apply Ho]; reflexivity. }
  vm_compute in Hc. discriminate Hc.
Qed.

(** C3 (as amended). On a Ping, [handleMessage] returns an error without
    calling [HandlePing] when the payload is shorter than 4 bytes or the
    message is not a single fragment; on a single-fragment Ping whose payload
    has at least 4 bytes it calls [HandlePing] once with the message's
    sequence and with [replyFor] the first four payload bytes read as a
    signed little-endian 32-bit integer, and returns nil. *)
Theorem handleMessage_ping (m : message) :
  messageType m = Ping ->
  (fragment m = x00 /\ ofFragments m = x01 /\ (4 <= length (payload m))%nat /\
   handleMessage (Some m) =
     (Ok tt, [HandlePing (sequence m) (toInt32 (getLE (firstn 4 (payload m))))]))
  \/
  ((fragment m <> x00 \/ ofFragments m <> x01 \/ (length (payload m) < 4)%nat) /\
   exists e, handleMessage (Some m) = (Err e, [])).
Proof.
  intros Et. unfold handleMessage. rewrite Et.
  change (Byte.eqb Ping Ping) with true. cbv iota.
  destruct (Byte.eqb (fragment m) x00) eqn:Ef; cbn [negb orb].
  2:{ right. split; [|eexists; reflexivity]. left. now apply Byte.eqb_false. }
  apply Byte.byte_dec_bl in Ef.
  destruct (Byte.eqb (ofFragments m) x01) eqn:Eo; cbn [negb].
  2:{ right. split; [|eexists; reflexivity].
      right; left. now apply Byte.eqb_false. }
  apply Byte.byte_dec_bl in Eo.
  destruct (Nat.lt_ge_cases (length (payload m)) 4) as [Hlt|Hge].
  - right. split; [right; right; exact Hlt|].
    destruct (readInt32_short _ Hlt) as [e ->]. eexists; reflexivity.
  - left. rewrite (readInt32_enough _ Hge). repeat split; assumption.
Qed.

Lemma handleMessage_ping_witness :
  (fragment (pingMessage 7 (-1)) = x00 /\
   ofFragments (pingMessage 7 (-1)) = x01 /\
   (4 <= length (payload (pingMessage 7 (-1))))%nat /\
   handleMessage (Some (pingMessage 7 (-1))) =
     (Ok tt, [HandlePing (sequence (pingMessage 7 (-1)))
                (toInt32 (getLE (firstn 4 (payload (pingMessage 7 (-1))))))]))
  \/
  ((fragment (pingMessage 7 (-1)) <> x00 \/
    ofFragments (pingMessage 7 (-1)) <> x01 \/
    (length (payload (pingMessage 7 (-1))) < 4)%nat) /\
   exists e, handleMessage (Some (pingMessage 7 (-1))) = (Err e, [])).
Proof.
  apply (handleMessage_ping (pingMessage 7 (-1))). reflexivity.
Defined.

(** With a payload of exactly four bytes, [replyFor] is the whole payload
    read as a signed little-endian 32-bit integer. *)
Lemma handleMessage_ping_exact (m : message) :
  messageType m = Ping -> fragment m = x00 -> ofFragments m = x01 ->
  length (payload m) = 4%nat ->
  handleMessage (Some m) =
    (Ok tt, [HandlePing (sequence m) (toInt32 (getLE (payload m)))]).
Proof.
  intros Et Ef Eo El. unfold handleMessage. rewrite Et, Ef, Eo.
  change (Byte.eqb Ping Ping) with true. cbn [Byte.eqb negb orb]. cbv iota.
  rewrite readInt32_enough by lia.
  rewrite firstn_all2 by lia. reflexivity.
Qed.

(** A ping sent by [writePing] is dispatched with the [replyFor] it carried. *)
Lemma handleMessage_pingMessage (seq replyFor : Z) :
  int32_range replyFor ->
  handleMessage (Some (pingMessage seq replyFor)) =
    (Ok tt, [HandlePing seq replyFor]).
Proof.
  intros Hr.
  rewrite handleMessage_ping_exact; try reflexivity.
  unfold pingMessage. cbn [payload sequence].
  rewrite getLE_putLE. change (8 * Z.of_nat 4) with 32.
  now rewrite toInt32_mod.
Qed.

(** C3 (as stated) fails on a single-fragment Ping with a five-byte payload:
    the payload is not exactly 4 bytes long, and [HandlePing] is called. *)
Lemma handleMessage_ping_counterexample :
  ~ (forall m : message,
       messageType m = Ping ->
       length (payload m) <> 4%nat ->
       exists e, handleMessage (Some m) = (Err e, [])).
Proof.
  intros H.
  destruct (H (mkMessage 7 x00 x01 Ping 0 0 [x01; x00; x00; x00; x09]))
    as [e He].
  - reflexivity.
  - cbn. discriminate.
  - vm_compute in He. discriminate He.
Qed.

End HandlerDispatch.

(** ** Cluster join *)

Section JoinFacts.

Import Controller.

Variable raftT : Type.
Variable LastIndex : raftT -> Z.
Variable BootstrapCluster : raftT -> list Server -> raftT * option error.
Variable HandleJoin : Controller raftT -> JoinRequest -> Controller raftT * option error.

Local Abbreviation Join := (Controller.Join raftT LastIndex BootstrapCluster HandleJoin).
Local Abbreviation JoinAll := (Controller.JoinAll raftT LastIndex BootstrapCluster HandleJoin).

Lemma eqb_empty_false (s : string) : s <> ""%string -> String.eqb s "" = false.
Proof. intros H. now apply String.eqb_neq. Qed.

(** Requests without an id or without an address are refused and change
    nothing. *)
Lemma Join_rejects_incomplete (self : Controller raftT) (req : JoinRequest) :
  Id req = ""%string \/ Addr req = ""%string ->
  exists err, Join self req = (self, Some err, []).
Proof.
  intros H. unfold Controller.Join.
  destruct (String.eqb_spec (Id req) "") as [_|Hid]; [eexists; reflexivity|].
  destruct H as [H|H]; [contradiction|].
  destruct (String.eqb_spec (Addr req) "") as [_|Had]; [eexists; reflexivity|].
  contradiction.
Qed.

(** Once the controller is bootstrapped, or the log has entries, a complete
    request is handed to [HandleJoin] and nothing is accumulated by [Join]. *)
Lemma Join_live (self : Controller raftT) (req : JoinRequest) :
  Id req <> ""%string -> Addr req <> ""%string ->
  bootstrapped self = true \/ 0 < LastIndex (Raft self) ->
  Join self req =
    (fst (HandleJoin self req), snd (HandleJoin self req), [CallHandleJoin req]).
Proof.
  intros Hid Had Hb. unfold Controller.Join.
  rewrite (eqb_empty_false _ Hid), (eqb_empty_false _ Had).
  assert (E : bootstrapped self || (0 <? LastIndex (Raft self)) = true).
  { apply orb_true_iff. destruct Hb as [Hb|Hb]; [now left|right].
    now apply Z.ltb_lt. }
  rewrite E. now destruct (HandleJoin self req).
Qed.

(** Before that, a complete request is appended to the pending servers and
    [BootstrapCluster] is called exactly when the count of pending servers
    of [Voter] suffrage has reached [MinClusterSize]. *)
Lemma Join_pending (self : Controller raftT) (req : JoinRequest) :
  Id req <> ""%string -> Addr req <> ""%string ->
  bootstrapped self = false -> LastIndex (Raft self) <= 0 ->
  let servers' := servers self ++ [serverOf req] in
  servers (fst (fst (Join self req))) = servers' /\
  snd (Join self req) =
    if MinClusterSize self <=? votingCount servers'
    then [CallBootstrapCluster servers'] else [].
Proof.
  intros Hid Had Hb Hl. unfold Controller.Join.
  rewrite (eqb_empty_false _ Hid), (eqb_empty_false _ Had), Hb.
  destruct (Z.ltb_spec 0 (LastIndex (Raft self))) as [|_]; [lia|].
  cbn [orb]. cbv zeta.
  destruct (MinClusterSize self <=? votingCount (servers self ++ [serverOf req])).
  - destruct (BootstrapCluster (Raft self) (servers self ++ [serverOf req]))
      as [raft' [err|]]; cbn; split; reflexivity.
  - cbn. split; reflexivity.
Qed.

Lemma votingCount_app (l : list Server) (s : Server) :
  votingCount (l ++ [s]) =
  if isVoterSuffrage (Suffrage s) then (votingCount l + 1) mod 2 ^ 32
  else votingCount l.
Proof. unfold votingCount. rewrite fold_left_app. reflexivity. Qed.



(** C1 (code at the failing input). On a controller that is not
    bootstrapped, has an empty log, no pending servers and
    [MinClusterSize] 1, a join request whose voter flag is set is stored as
    a non-voter and does not bootstrap the cluster, while a request whose
    voter flag is not set makes [Join] call [BootstrapCluster] at once. *)
Theorem Join_voter_flag_inverted (r : raftT) (id addr : string) :
  LastIndex r <= 0 -> id <> ""%string -> addr <> ""%string ->
  Join (mkController false [] 1 r) (mkJoinRequest addr id true) =
    (mkController false [mkServer id addr Nonvoter] 1 r, None, []) /\
  snd (Join (mkController false [] 1 r) (mkJoinRequest addr id false)) =
    [CallBootstrapCluster [mkServer id addr Voter]].
Proof.
  intros Hl Hid Had. split.
  - unfold Controller.Join. cbn [Id Addr IsVoter bootstrapped Raft servers
                                 MinClusterSize].
    rewrite (eqb_empty_false _ Hid), (eqb_empty_false _ Had).
    destruct (Z.ltb_spec 0 (LastIndex r)) as [|_]; [lia|]. reflexivity.
  - pose proof (Join_pending (mkController false [] 1 r)
                  (mkJoinRequest addr id false) Hid Had eq_refl Hl) as [_ H].
    exact H.
Qed.

End JoinFacts.

Lemma Join_voter_flag_inverted_witness :
  let Join :=
    Controller.Join Z (fun r => r) (fun _ _ => (1, None)) (fun c _ => (c, None)) in
  Join (Controller.mkController false [] 1 0)
       (Controller.mkJoinRequest "ctrl1:6262" "ctrl1" true) =
    (Controller.mkController false
       [Controller.mkServer "ctrl1" "ctrl1:6262" Controller.Nonvoter] 1 0,
     None, []) /\
  snd (Join (Controller.mkController false [] 1 0)
            (Controller.mkJoinRequest "ctrl1:6262" "ctrl1" false)) =
    [Controller.CallBootstrapCluster
       [Controller.mkServer "ctrl1" "ctrl1:6262" Controller.Voter]].
Proof.
  apply (Join_voter_flag_inverted Z (fun r => r) (fun _ _ => (1, None))
           (fun c _ => (c, None)) 0 "ctrl1" "ctrl1:6262").
  - lia.
  - discriminate.
  - discriminate.
Defined.

(** ** Command dispatch *)

Section DispatchFacts.

Import Controller.

Variables NewLogEntryType SuccessResponseType ErrorResponseType : Z.
Variables HeaderErrorCode ErrorCodeApiError : Z.
Variable Peer : Type.

Local Abbreviation Dispatch :=
  (Controller.Dispatch NewLogEntryType SuccessResponseType ErrorResponseType
     HeaderErrorCode ErrorCodeApiError Peer).

(** A command that passes validation, or has none, makes [Dispatch] look at
    the raft state first: whatever follows, the trace of interactions is not
    empty. *)
Lemma Dispatch_valid_reads_state (env : Env Peer) (cmd : Command) :
  Validate cmd = None \/ Validate cmd = Some None ->
  exists rest, snd (Dispatch env cmd) = ReadRaftState :: rest.
Proof.
  intros H. unfold Controller.Dispatch.
  assert (E : forall run : Act unit,
            exists rest,
              snd (match andThen (perform ReadRaftState (inr (IsLeader env)))
                                 (fun _ => run) with
                   | (inl err, t) => (Some err, t)
                   | (inr _, t) => (None, t)
                   end) = ReadRaftState :: rest).
  { intros [[err|[]] t]; cbn; eexists; reflexivity. }
  destruct H as [-> | ->].
  - destruct (IsLeader env); cbn [andThen perform]; apply E.
  - destruct (IsLeader env); cbn [andThen perform]; apply E.
Qed.

(** On the leader, a valid command is encoded and applied to the raft log. *)
Lemma Dispatch_leader_applies (env : Env Peer) (cmd : Command)
    (encoded : list byte) :
  Validate cmd = None \/ Validate cmd = Some None ->
  IsLeader env = true -> Encode cmd = inr encoded ->
  RaftApply env encoded = inr ValNil ->
  Dispatch env cmd = (None, [ReadRaftState; CallEncode; CallRaftApply encoded]).
Proof.
  intros H Hl He Ha. unfold Controller.Dispatch.
  destruct H as [-> | ->];
    unfold applyCommand, ApplyEncodedCommand, ApplyWithTimeout;
    rewrite Hl; cbn; rewrite He; cbn; rewrite Ha; reflexivity.
Qed.

(** C9. When the command implements the validation interface and its
    validation returns an error [e], [Dispatch] returns [e] and interacts
    with nothing: the command is not encoded, the raft state is not read,
    nothing is applied to the raft log and nothing is sent to a leader. *)
Theorem Dispatch_validation_short_circuits
    (env : Env Peer) (cmd : Command) (e : error) :
  Validate cmd = Some (Some e) ->
  Dispatch env cmd = (Some e, []).
Proof.
  intros H. unfold Controller.Dispatch. rewrite H. reflexivity.
Qed.

End DispatchFacts.

Lemma Dispatch_validation_short_circuits_witness :
  Controller.Dispatch 1 2 3 4 5 unit
    (Controller.mkEnv unit true "ctrl1:6262"
       (fun _ => inr tt) (fun _ => inr Controller.ValNil)
       (fun _ _ _ => inl (Controller.Errorf "timeout"))
       (fun _ => None) (fun _ => None))
    (Controller.mkCommand (Some (Some (Controller.Errorf "invalid")))
       (inr [x01]))
  = (Some (Controller.Errorf "invalid"), []).
Proof.
  apply (Dispatch_validation_short_circuits 1 2 3 4 5 unit). reflexivity.
Defined.

(** ** Trace toggling *)

Section ToggleFacts.

Import Trace.

Variable SourceType : Type.
Variable SourceTypePipe : SourceType.
Variable SourceType_eqb : SourceType -> SourceType -> bool.

Local Abbreviation ToggleTracing :=
  (Trace.ToggleTracing SourceType SourceTypePipe SourceType_eqb).
Local Abbreviation DisableTracing :=
  (Trace.DisableTracing SourceType SourceTypePipe SourceType_eqb).
Local Abbreviation EnableTracing :=
  (Trace.EnableTracing SourceType SourceTypePipe SourceType_eqb).

(** [enable] ignores its argument. *)
Lemma enable_sets_true (handler : ChannelPeekHandler) (b : bool) :
  IsEnabled (enable handler b) = true.
Proof. reflexivity. Qed.

(** No toggle turns an enabled handler off. *)
Lemma ToggleTracing_keeps_enabled (handler : ChannelPeekHandler)
    (sourceType : SourceType) (matcher : SourceMatcher) (b : bool) :
  IsEnabled handler = true ->
  IsEnabled (fst (ToggleTracing handler sourceType matcher b)) = true.
Proof.
  intros H. unfold Trace.ToggleTracing. cbn [fst].
  destruct (SourceType_eqb sourceType SourceTypePipe && matcher (LogicalName handler));
    [reflexivity|exact H].
Qed.

(** A toggle that does not match leaves the handler as it was. *)
Lemma ToggleTracing_unmatched (handler : ChannelPeekHandler)
    (sourceType : SourceType) (matcher : SourceMatcher) (b : bool) :
  SourceType_eqb sourceType SourceTypePipe && matcher (LogicalName handler) = false ->
  fst (ToggleTracing handler sourceType matcher b) = handler.
Proof.
  intros H. unfold Trace.ToggleTracing. cbn [fst]. now rewrite H.
Qed.

(** C10 (as amended). When the source type is [SourceTypePipe] and the
    channel name matches the supplied matcher, [DisableTracing] leaves
    [IsEnabled] returning true, whatever it returned before: [enable] sets
    the flag to true regardless of its argument. The result sent back reports
    a match. *)
Theorem DisableTracing_leaves_enabled (handler : ChannelPeekHandler)
    (sourceType : SourceType) (matcher : SourceMatcher) :
  SourceType_eqb sourceType SourceTypePipe = true ->
  matcher (LogicalName handler) = true ->
  IsEnabled (fst (DisableTracing handler sourceType matcher)) = true /\
  matched (snd (DisableTracing handler sourceType matcher)) = true.
Proof.
  intros Hs Hm. unfold Trace.DisableTracing, Trace.ToggleTracing.
  rewrite Hs, Hm. split; reflexivity.
Qed.

End ToggleFacts.

Lemma DisableTracing_leaves_enabled_witness :
  Trace.IsEnabled
    (fst (Trace.DisableTracing Z 0 Z.eqb (Trace.mkHandler "ctrl" "link-1" false)
            0 (String.eqb "link-1"))) = true /\
  Trace.matched
    (snd (Trace.DisableTracing Z 0 Z.eqb (Trace.mkHandler "ctrl" "link-1" false)
            0 (String.eqb "link-1"))) = true.
Proof.
  apply (DisableTracing_leaves_enabled Z 0 Z.eqb).
  - reflexivity.
  - reflexivity.
Defined.

(** C10 (as stated) fails when the source type is not [SourceTypePipe]: the
    name matches the matcher, nothing is toggled, and a handler that was not
    enabled stays so. Source types are taken as integers here, with
    [SourceTypePipe] 0. *)
Lemma DisableTracing_counterexample :
  ~ (forall (handler : Trace.ChannelPeekHandler) (sourceType : Z)
            (matcher : Trace.SourceMatcher),
       matcher (Trace.LogicalName handler) = true ->
       Trace.IsEnabled
         (fst (Trace.DisableTracing Z 0 Z.eqb handler sourceType matcher)) = true).
Proof.
  intros H.
  specialize (H (Trace.mkHandler "ctrl" "link-1" false) 1 (String.eqb "link-1")
                eq_refl).
  vm_compute in H. discriminate H.
Qed.

(** ** The decoder, case by case *)

Section DecodeCases.

Lemma toInt32_range (v : Z) : int32_range (toInt32 v).
Proof.
  unfold int32_range, toInt32. cbv zeta.
  pose proof (Z.mod_pos_bound v (2 ^ 32) ltac:(lia)) as H.
  destruct (Z.ltb_spec (v mod 2 ^ 32) (2 ^ 31)); lia.
Qed.

Lemma reslice_ok (s : slice) (lo hi : Z) :
  0 <= lo <= hi -> hi <= cap s ->
  reslice s lo hi =
  Ok (mkSlice (firstn (Z.to_nat (hi - lo)) (skipn (Z.to_nat lo) (backing s)))
              (skipn (Z.to_nat hi) (backing s))).
Proof.
  intros [H0 H1] H2. unfold reslice.
  destruct (Z.leb_spec 0 lo); [|lia].
  destruct (Z.leb_spec lo hi); [|lia].
  destruct (Z.leb_spec hi (cap s)); [|lia].
  reflexivity.
Qed.

Lemma reslice_Ok_inv (s p : slice) (lo hi : Z) :
  reslice s lo hi = Ok p ->
  0 <= lo <= hi /\ hi <= cap s /\
  elems p = firstn (Z.to_nat (hi - lo)) (skipn (Z.to_nat lo) (backing s)).
Proof.
  unfold reslice.
  destruct (Z.leb_spec 0 lo); cbn [andb]; [|discriminate].
  destruct (Z.leb_spec lo hi); cbn [andb]; [|discriminate].
  destruct (Z.leb_spec hi (cap s)); [|discriminate].
  intros Hp. injection Hp as <-. cbn [elems]. repeat split; lia.
Qed.

(** Past the three header checks, all that is left of [decodeMessage] is
    the payload slice expression. *)
Lemma decodeMessage_valid_header (data : slice) :
  15 <= len data ->
  firstn 4 (elems data) = magicV1 ->
  getLE (firstn 2 (skipn 11 (elems data))) = 0 ->
  decodeMessage data =
  (p <- reslice data 15
          (toUint16 (15 + getLE (firstn 2 (skipn 13 (elems data))))) ;;
   Ok (mkMessage (toInt32 (getLE (firstn 4 (skipn 4 (elems data)))))
         (nth 8 (elems data) x00) (nth 9 (elems data) x00)
         (nth 10 (elems data) x00) 0 0 (elems p))).
Proof.
  intros Hlong Hm Hh.
  destruct (elems_header data Hlong)
    as (b0 & b1 & b2 & b3 & b4 & b5 & b6 & b7 & b8 & b9 & b10 & b11 & b12
        & b13 & b14 & rest & E).
  destruct data as [el sp]. cbn [elems] in *. subst el.
  rewrite decodeMessage_header. cbn [firstn skipn nth] in *.
  apply magicOk_iff in Hm. rewrite Hm, Hh. reflexivity.
Qed.

Lemma decodeMessage_short (data : slice) :
  len data < 15 -> decodeMessage data = Err "short read".
Proof.
  intros H. unfold decodeMessage, messageSectionLength.
  destruct (Z.ltb_spec (len data) 15); [reflexivity|lia].
Qed.

(** A buffer with a whole message section and a wrong header is refused. *)
Lemma decodeMessage_bad_header (data : slice) :
  15 <= len data ->
  firstn 4 (elems data) <> magicV1 \/
  getLE (firstn 2 (skipn 11 (elems data))) <> 0 ->
  exists e, decodeMessage data = Err e.
Proof.
  intros Hlong H.
  destruct (elems_header data Hlong)
    as (b0 & b1 & b2 & b3 & b4 & b5 & b6 & b7 & b8 & b9 & b10 & b11 & b12
        & b13 & b14 & rest & E).
  destruct data as [el sp]. cbn [elems] in *. subst el.
  rewrite decodeMessage_header. cbn [firstn skipn] in H.
  destruct (magicOk b0 b1 b2 b3) eqn:Hm; [|eexists; reflexivity].
  apply magicOk_iff in Hm.
  destruct H as [H|H]; [contradiction|].
  destruct (Z.eqb_spec (getLE [b11; b12]) 0); [contradiction|].
  eexists; reflexivity.
Qed.

Lemma declared_length_range (l : list byte) :
  0 <= getLE (firstn 2 l) < 65536.
Proof.
  pose proof (getLE_range (firstn 2 l)) as H.
  assert (Hl : (length (firstn 2 l) <= 2)%nat) by (rewrite length_firstn; lia).
  assert (Hp : 2 ^ (8 * Z.of_nat (length (firstn 2 l))) <= 2 ^ 16)
    by (apply Z.pow_le_mono_r; lia).
  change (2 ^ 16) with 65536 in Hp. lia.
Qed.

(** The payload of a valid header is cut out of the backing array, up to
    its capacity. *)
Lemma decodeMessage_payload_in_cap (data : slice) :
  15 <= len data ->
  firstn 4 (elems data) = magicV1 ->
  getLE (firstn 2 (skipn 11 (elems data))) = 0 ->
  15 + getLE (firstn 2 (skipn 13 (elems data))) <= cap data ->
  15 + getLE (firstn 2 (skipn 13 (elems data))) < 65536 ->
  decodeMessage data =
  Ok (mkMessage (toInt32 (getLE (firstn 4 (skipn 4 (elems data)))))
        (nth 8 (elems data) x00) (nth 9 (elems data) x00)
        (nth 10 (elems data) x00) 0 0
        (firstn (Z.to_nat (getLE (firstn 2 (skipn 13 (elems data)))))
                (skipn 15 (backing data)))).
Proof.
  intros Hlong Hm Hh Hc Hw.
  rewrite (decodeMessage_valid_header data Hlong Hm Hh).
  pose proof (declared_length_range (skipn 13 (elems data))) as Hr.
  set (pl := getLE (firstn 2 (skipn 13 (elems data)))) in *.
  unfold toUint16. change (2 ^ 16) with 65536.
  rewrite Z.mod_small by lia.
  rewrite reslice_ok by lia. cbn [bind elems].
  replace (15 + pl - 15) with pl by lia.
  change (Z.to_nat 15) with 15%nat. reflexivity.
Qed.

(** X1. [decodeMessage] returns an error exactly on the buffers that are
    shorter than 15 bytes, or do not begin with the magic, or declare a
    non-zero headers length; on every other buffer it returns a message or
    faults. *)
Theorem decodeMessage_Err_iff (data : slice) :
  (exists e, decodeMessage data = Err e) <->
  (len data < 15 \/
   firstn 4 (elems data) <> magicV1 \/
   getLE (firstn 2 (skipn 11 (elems data))) <> 0).
Proof.
  split.
  - intros [e He].
    destruct (Z_lt_le_dec (len data) 15) as [Hs|Hlong]; [now left|right].
    destruct (list_eq_dec Byte.byte_eq_dec (firstn 4 (elems data)) magicV1)
      as [Hm|Hm]; [right|now left].
    destruct (Z.eq_dec (getLE (firstn 2 (skipn 11 (elems data)))) 0)
      as [Hh|Hh]; [|exact Hh].
    exfalso. exact (decodeMessage_valid_header_not_Err data e Hlong Hm Hh He).
  - intros H.
    destruct (Z_lt_le_dec (len data) 15) as [Hs|Hlong].
    + eexists. apply decodeMessage_short. exact Hs.
    + apply decodeMessage_bad_header; [exact Hlong|].
      destruct H as [H|H]; [lia|exact H].
Qed.

(** X2. A message returned by [decodeMessage] comes from a buffer of at
    least 15 bytes with the magic and a zero headers length; its sequence is
    an [int32] read from offsets 4-7, its fragment fields and type are the
    bytes at offsets 8, 9 and 10, its [headersLength] and [payloadLength] are
    0, and its payload has exactly the declared length and is cut from offset
    15 of the backing array, within its capacity. *)
Theorem decodeMessage_Ok_inv (data : slice) (m : message) :
  decodeMessage data = Ok m ->
  15 <= len data /\
  firstn 4 (elems data) = magicV1 /\
  getLE (firstn 2 (skipn 11 (elems data))) = 0 /\
  15 + getLE (firstn 2 (skipn 13 (elems data))) <= cap data /\
  sequence m = toInt32 (getLE (firstn 4 (skipn 4 (elems data)))) /\
  int32_range (sequence m) /\
  fragment m = nth 8 (elems data) x00 /\
  ofFragments m = nth 9 (elems data) x00 /\
  messageType m = nth 10 (elems data) x00 /\
  headersLength m = 0 /\
  payloadLength m = 0 /\
  payload m =
    firstn (Z.to_nat (getLE (firstn 2 (skipn 13 (elems data)))))
           (skipn 15 (backing data)) /\
  Z.of_nat (length (payload m)) = getLE (firstn 2 (skipn 13 (elems data))).
Proof.
  intros Hd.
  destruct (Z_lt_le_dec (len data) 15) as [Hs|Hlong].
  { rewrite (decodeMessage_short data Hs) in Hd. discriminate Hd. }
  destruct (list_eq_dec Byte.byte_eq_dec (firstn 4 (elems data)) magicV1)
    as [Hm|Hm].
  2:{ destruct (decodeMessage_bad_header data Hlong (or_introl Hm)) as [e He].
      rewrite He in Hd. discriminate Hd. }
  destruct (Z.eq_dec (getLE (firstn 2 (skipn 11 (elems data)))) 0) as [Hh|Hh].
  2:{ destruct (decodeMessage_bad_header data Hlong (or_intror Hh)) as [e He].
      rewrite He in Hd. discriminate Hd. }
  rewrite (decodeMessage_valid_header data Hlong Hm Hh) in Hd.
  pose proof (declared_length_range (skipn 13 (elems data))) as Hr.
  set (pl := getLE (firstn 2 (skipn 13 (elems data)))) in *.
  destruct (reslice data 15 (toUint16 (15 + pl))) as [p| |] eqn:Er;
    cbn [bind] in Hd; try discriminate Hd.
  injection Hd as <-. cbn [sequence fragment ofFragments messageType
                           headersLength payloadLength payload].
  apply reslice_Ok_inv in Er. destruct Er as ([_ Hlo] & Hhi & Hel).
  unfold toUint16 in *. change (2 ^ 16) with 65536 in *.
  assert (Hw : 15 + pl < 65536).
  { destruct (Z_lt_le_dec (15 + pl) 65536) as [|Hge]; [assumption|].
    assert ((15 + pl) mod 65536 = 15 + pl - 65536)
      by (symmetry; apply Z.mod_unique with (q := 1); lia).
    lia. }
  rewrite Z.mod_small in Hhi, Hel by lia.
  replace (15 + pl - 15) with pl in Hel by lia.
  change (Z.to_nat 15) with 15%nat in Hel.
  repeat split; try assumption; try reflexivity; try apply toInt32_range.
  rewrite Hel, length_firstn, length_skipn.
  unfold cap in Hhi. lia.
Qed.

Lemma decodeMessage_Ok_inv_witness :
  let data := ofList [x01; x02; x02; x00; x07; x00; x00; x00; x00; x01; x01;
                      x00; x00; x01; x00; x2a] in
  let m := mkMessage 7 x00 x01 Ping 0 0 [x2a] in
  15 <= len data /\
  firstn 4 (elems data) = magicV1 /\
  getLE (firstn 2 (skipn 11 (elems data))) = 0 /\
  15 + getLE (firstn 2 (skipn 13 (elems data))) <= cap data /\
  sequence m = toInt32 (getLE (firstn 4 (skipn 4 (elems data)))) /\
  int32_range (sequence m) /\
  fragment m = nth 8 (elems data) x00 /\
  ofFragments m = nth 9 (elems data) x00 /\
  messageType m = nth 10 (elems data) x00 /\
  headersLength m = 0 /\
  payloadLength m = 0 /\
  payload m =
    firstn (Z.to_nat (getLE (firstn 2 (skipn 13 (elems data)))))
           (skipn 15 (backing data)) /\
  Z.of_nat (length (payload m)) = getLE (firstn 2 (skipn 13 (elems data))).
Proof.
  cbv zeta. apply decodeMessage_Ok_inv. vm_compute. reflexivity.
Defined.

(** X3. On a buffer with a valid header, [decodeMessage] succeeds whenever
    the declared payload ends within the capacity of the buffer (and below
    65536), also when it ends past the length of the buffer: the payload then
    includes bytes of the backing array that lie beyond [len]. *)
Theorem decodeMessage_within_capacity (data : slice) :
  15 <= len data ->
  firstn 4 (elems data) = magicV1 ->
  getLE (firstn 2 (skipn 11 (elems data))) = 0 ->
  15 + getLE (firstn 2 (skipn 13 (elems data))) <= cap data ->
  15 + getLE (firstn 2 (skipn 13 (elems data))) < 65536 ->
  exists m,
    decodeMessage data = Ok m /\
    payload m =
      firstn (Z.to_nat (getLE (firstn 2 (skipn 13 (elems data)))))
             (skipn 15 (elems data ++ spare data)).
Proof.
  intros Hlong Hm Hh Hc Hw.
  eexists. split.
  - apply decodeMessage_payload_in_cap; assumption.
  - reflexivity.
Qed.

Lemma decodeMessage_within_capacity_witness :
  exists m,
    decodeMessage
      (mkSlice [x01; x02; x02; x00; x07; x00; x00; x00; x00; x01; x01;
                x00; x00; x02; x00; x2a] [x2b; x2c]) = Ok m /\
    payload m = [x2a; x2b].
Proof.
  apply (decodeMessage_within_capacity
           (mkSlice [x01; x02; x02; x00; x07; x00; x00; x00; x00; x01; x01;
                     x00; x00; x02; x00; x2a] [x2b; x2c]));
    vm_compute; try reflexivity; discriminate.
Defined.

(** X4. A valid header that declares a payload of 65521 bytes or more makes
    [decodeMessage] fault whatever the capacity of the buffer: the end of the
    payload slice is computed in [uint16] and wraps below its start. *)
Theorem decodeMessage_length_wraps (data : slice) :
  15 <= len data ->
  firstn 4 (elems data) = magicV1 ->
  getLE (firstn 2 (skipn 11 (elems data))) = 0 ->
  65521 <= getLE (firstn 2 (skipn 13 (elems data))) ->
  decodeMessage data = Panic.
Proof.
  intros Hlong Hm Hh Hp.
  rewrite (decodeMessage_valid_header data Hlong Hm Hh).
  pose proof (declared_length_range (skipn 13 (elems data))) as Hr.
  set (pl := getLE (firstn 2 (skipn 13 (elems data)))) in *.
  unfold toUint16. change (2 ^ 16) with 65536.
  assert (Ew : (15 + pl) mod 65536 = 15 + pl - 65536)
    by (symmetry; apply Z.mod_unique with (q := 1); lia).
  rewrite Ew, reslice_inverted by lia. reflexivity.
Qed.

Lemma decodeMessage_length_wraps_witness :
  decodeMessage
    (mkSlice [x01; x02; x02; x00; x07; x00; x00; x00; x00; x01; x01;
              x00; x00; xff; xff] (repeat x00 200)) = Panic.
Proof.
  apply decodeMessage_length_wraps; vm_compute; try reflexivity; discriminate.
Defined.

End DecodeCases.

(** ** Sending, receiving and dispatching *)

Section LinkFacts.

Import Link.

Lemma firstn_repeat_le (b : byte) (k n : nat) :
  (k <= n)%nat -> firstn k (repeat b n) = repeat b k.
Proof.
  revert n. induction k as [|k IH]; intros n H; [reflexivity|].
  destruct n as [|n]; [lia|]. cbn. f_equal. apply IH. lia.
Qed.

Lemma split_at_length (l z : list byte) : firstn (length l) (l ++ z) = l.
Proof.
  rewrite firstn_app, Nat.sub_diag, firstn_all. cbn [firstn]. apply app_nil_r.
Qed.

Lemma skip_at_length (l z : list byte) : skipn (length l) (l ++ z) = z.
Proof.
  rewrite skipn_app, Nat.sub_diag, skipn_all. reflexivity.
Qed.

(** The frame of [m] decodes the same way whatever follows it in the
    backing array. *)
Lemma decode_frame_spare (m : message) (extra : list byte) :
  int32_range (sequence m) ->
  Z.of_nat (length (payload m)) <= 1457 ->
  decodeMessage (mkSlice (frame m) extra) =
  Ok (mkMessage (sequence m) (fragment m) (ofFragments m) (messageType m)
                0 0 (payload m)).
Proof.
  intros Hseq Hlen.
  pose proof (getLE_putLE 4 (sequence m)) as Hs.
  pose proof (getLE_putLE 2 (toUint16 (Z.of_nat (length (payload m))))) as Hp.
  unfold frame, magicV1 in *. cbn [putLE app] in *.
  rewrite decodeMessage_header.
  change (magicOk x01 x02 x02 x00) with true.
  change (getLE [toByte 0; toByte (Z.shiftr 0 8)] =? 0) with true.
  cbv iota. rewrite Hs, Hp.
  change (8 * Z.of_nat 4) with 32. change (8 * Z.of_nat 2) with 16.
  rewrite toInt32_mod by exact Hseq.
  unfold toUint16. change (2 ^ 16) with 65536.
  rewrite Z.mod_mod by lia.
  rewrite (Z.mod_small (Z.of_nat (length (payload m)))) by lia.
  rewrite (Z.mod_small (15 + _)) by lia.
  match goal with |- context [reslice ?s 15 ?hi] =>
    destruct (reslice_in s 15 hi) as [sp ->] end.
  - lia.
  - unfold len. cbn [elems length]. lia.
  - cbn [bind elems].
    replace (Z.to_nat (15 + Z.of_nat (length (payload m)) - 15))
      with (length (payload m)) by lia.
    change (Z.to_nat 15) with 15%nat. cbn [skipn].
    now rewrite firstn_all.
Qed.

(** What [readMessage] decodes: the datagram, cut to the size of the
    receive buffer, as a slice whose spare capacity is the zeroed rest of
    the buffer. *)
Lemma readMessage_decodes (MaxPacketSize : nat) (conn : Conn)
    (datagram : list byte) :
  readDeadlineErr conn = None ->
  incoming conn = inr datagram ->
  readMessage MaxPacketSize conn =
  (wrapErr "error decoding message"
     (decodeMessage
        (mkSlice (firstn MaxPacketSize datagram)
                 (repeat x00 (MaxPacketSize - length datagram)))),
   [SetReadDeadline 5; ReadFromUDP]).
Proof.
  intros Hd Hi. unfold readMessage, received. rewrite Hd, Hi.
  set (n := Nat.min (length datagram) MaxPacketSize).
  set (l := firstn n datagram).
  assert (Hn : length l = n) by (unfold l; rewrite length_firstn; lia).
  set (z := repeat x00 (MaxPacketSize - n)).
  rewrite reslice_ok.
  2: lia.
  2:{ unfold cap, backing, ofList. cbn [elems spare].
      rewrite app_nil_r, length_app, Hn. lia. }
  cbn [bind]. unfold backing, ofList. cbn [elems spare].
  rewrite app_nil_r, Z.sub_0_r, Nat2Z.id. cbn [Z.to_nat skipn].
  rewrite <- Hn, (split_at_length l z), (skip_at_length l z).
  assert (E1 : l = firstn MaxPacketSize datagram).
  { unfold l, n.
    destruct (Nat.le_ge_cases (length datagram) MaxPacketSize) as [H|H].
    - rewrite !firstn_all2 by lia. reflexivity.
    - rewrite Nat.min_r by lia. reflexivity. }
  assert (E2 : z = repeat x00 (MaxPacketSize - length datagram)).
  { unfold z, n. f_equal. lia. }
  now rewrite E1, E2.
Qed.

(** X5. A datagram with a valid header that carries fewer payload bytes
    than it declares is not refused by [readMessage]: when the declared
    payload fits the receive buffer, a message is returned whose payload is
    the bytes that arrived followed by zero bytes of the buffer. *)
Theorem readMessage_pads_short_datagram (MaxPacketSize : nat) (conn : Conn)
    (datagram : list byte) :
  readDeadlineErr conn = None ->
  incoming conn = inr datagram ->
  (15 <= length datagram)%nat ->
  firstn 4 datagram = magicV1 ->
  getLE (firstn 2 (skipn 11 datagram)) = 0 ->
  Z.of_nat (length datagram) <= 15 + getLE (firstn 2 (skipn 13 datagram)) ->
  15 + getLE (firstn 2 (skipn 13 datagram)) <= Z.of_nat MaxPacketSize ->
  15 + getLE (firstn 2 (skipn 13 datagram)) < 65536 ->
  exists m,
    readMessage MaxPacketSize conn = (Ok m, [SetReadDeadline 5; ReadFromUDP]) /\
    payload m =
      skipn 15 datagram
      ++ repeat x00 (Z.to_nat (15 + getLE (firstn 2 (skipn 13 datagram)))
                     - length datagram).
Proof.
  intros Hd Hi Hlong Hm Hh Hshort Hfit Hw.
  rewrite (readMessage_decodes MaxPacketSize conn datagram Hd Hi).
  rewrite firstn_all2 by lia.
  set (pl := getLE (firstn 2 (skipn 13 datagram))) in *.
  rewrite decodeMessage_payload_in_cap; cbn [elems]; try assumption.
  - cbn [wrapErr]. eexists. split; [reflexivity|].
    cbn [payload]. unfold backing. cbn [elems spare]. fold pl.
    pose proof (declared_length_range (skipn 13 datagram)) as Hr. fold pl in Hr.
    rewrite skipn_app, firstn_app, length_skipn.
    replace (15 - length datagram)%nat with 0%nat by lia. rewrite skipn_O.
    rewrite firstn_all2 by (rewrite length_skipn; lia).
    rewrite firstn_repeat_le by lia.
    f_equal. f_equal. lia.
  - unfold len. cbn [elems]. lia.
  - unfold cap, backing. cbn [elems spare]. fold pl.
    rewrite length_app, repeat_length. lia.
Qed.

Lemma readMessage_pads_short_datagram_witness :
  exists m,
    readMessage 32
      (mkConn None None None
         (inr [x01; x02; x02; x00; x07; x00; x00; x00; x00; x01; x01;
               x00; x00; x04; x00; x2a]))
    = (Ok m, [SetReadDeadline 5; ReadFromUDP]) /\
    payload m = [x2a; x00; x00; x00].
Proof.
  apply (readMessage_pads_short_datagram 32
           (mkConn None None None
              (inr [x01; x02; x02; x00; x07; x00; x00; x00; x00; x01; x01;
                    x00; x00; x04; x00; x2a]))
           [x01; x02; x02; x00; x07; x00; x00; x00; x00; x01; x01;
            x00; x00; x04; x00; x2a]);
    vm_compute; try reflexivity; try discriminate; try lia.
Defined.

(** X6. Link hello, end to end: for a token of at most 1457 bytes and a
    connection that reports no error, [writeHello] sets the write deadline
    and writes one datagram of 15 bytes plus the token; when that datagram is
    what [readMessage] receives, in a buffer large enough to hold it, the
    message it returns makes [handleHello] call [HandleHello] with the same
    token. *)
Theorem hello_end_to_end (token : list byte) (sender : Conn) :
  Z.of_nat (length token) <= 1457 ->
  writeDeadlineErr sender = None ->
  writeToUDPErr sender = None ->
  exists datagram,
    writeHello token sender =
      (Ok tt, [SetWriteDeadline 5; WriteToUDP datagram]) /\
    length datagram = (15 + length token)%nat /\
    forall (MaxPacketSize : nat) (receiver : Conn),
      readDeadlineErr receiver = None ->
      incoming receiver = inr datagram ->
      (length datagram <= MaxPacketSize)%nat ->
      exists m,
        readMessage MaxPacketSize receiver =
          (Ok m, [SetReadDeadline 5; ReadFromUDP]) /\
        handleHello (Some m) = (Ok tt, [HandleHello token]).
Proof.
  intros Hlen Hwd Hwe.
  exists (frame (helloMessage token)).
  pose proof (encodeMessage_eq (helloMessage token)) as He.
  cbn [payload helloMessage] in He.
  destruct (Z.ltb_spec 1457 (Z.of_nat (length token))) as [|_]; [lia|].
  split; [|split].
  - unfold writeHello. rewrite He, Hwd, Hwe. reflexivity.
  - pose proof (frame_length (helloMessage token)) as Hf.
    cbn [payload helloMessage] in Hf. lia.
  - intros MaxPacketSize receiver Hrd Hin Hfit.
    rewrite (readMessage_decodes _ _ _ Hrd Hin).
    rewrite firstn_all2 by lia.
    rewrite decode_frame_spare.
    + cbn [wrapErr sequence fragment ofFragments messageType payload helloMessage].
      eexists. split; reflexivity.
    + unfold int32_range. cbn. lia.
    + exact Hlen.
Qed.

Lemma hello_end_to_end_witness :
  exists datagram,
    writeHello [x61; x62; x63] (mkConn None None None (inl "unused"%string)) =
      (Ok tt, [SetWriteDeadline 5; WriteToUDP datagram]) /\
    length datagram = (15 + length [x61; x62; x63])%nat /\
    forall (MaxPacketSize : nat) (receiver : Conn),
      readDeadlineErr receiver = None ->
      incoming receiver = inr datagram ->
      (length datagram <= MaxPacketSize)%nat ->
      exists m,
        readMessage MaxPacketSize receiver =
          (Ok m, [SetReadDeadline 5; ReadFromUDP]) /\
        handleHello (Some m) = (Ok tt, [HandleHello [x61; x62; x63]]).
Proof.
  apply (hello_end_to_end [x61; x62; x63]
           (mkConn None None None (inl "unused"%string))).
  - simpl. lia.
  - reflexivity.
  - reflexivity.
Defined.

(** X7. Link ping, end to end: for [int32] values [sequence] and
    [replyFor] and a connection that reports no error, [writePing] writes one
    datagram of 19 bytes; when that datagram is what [readMessage] receives,
    the message it returns makes [handleMessage] call [HandlePing] with the
    same [sequence] and [replyFor]. *)
Theorem ping_end_to_end (seq replyFor : Z) (sender : Conn) :
  int32_range seq -> int32_range replyFor ->
  writeDeadlineErr sender = None ->
  writeToUDPErr sender = None ->
  exists datagram,
    writePing seq sender replyFor =
      (Ok tt, [SetWriteDeadline 5; WriteToUDP datagram]) /\
    length datagram = 19%nat /\
    forall (MaxPacketSize : nat) (receiver : Conn),
      readDeadlineErr receiver = None ->
      incoming receiver = inr datagram ->
      (19 <= MaxPacketSize)%nat ->
      exists m,
        readMessage MaxPacketSize receiver =
          (Ok m, [SetReadDeadline 5; ReadFromUDP]) /\
        handleMessage (Some m) = (Ok tt, [HandlePing seq replyFor]).
Proof.
  intros Hs Hr Hwd Hwe.
  exists (frame (pingMessage seq replyFor)).
  pose proof (encodeMessage_eq (pingMessage seq replyFor)) as He.
  cbn [payload pingMessage putLE length] in He.
  change (1457 <? Z.of_nat 4) with false in He. cbv iota in He.
  assert (Hf : length (frame (pingMessage seq replyFor)) = 19%nat)
    by reflexivity.
  split; [|split].
  - unfold writePing. rewrite He, Hwd, Hwe. reflexivity.
  - exact Hf.
  - intros MaxPacketSize receiver Hrd Hin Hfit.
    rewrite (readMessage_decodes _ _ _ Hrd Hin).
    rewrite firstn_all2 by lia.
    rewrite decode_frame_spare.
    + cbn [wrapErr]. eexists. split; [reflexivity|].
      pose proof (handleMessage_ping_exact
                    (mkMessage seq x00 x01 Ping 0 0 (putLE 4 replyFor))
                    eq_refl eq_refl eq_refl eq_refl) as Hh.
      cbn [sequence fragment ofFragments messageType payload pingMessage] in *.
      rewrite Hh, getLE_putLE. change (8 * Z.of_nat 4) with 32.
      now rewrite toInt32_mod.
    + exact Hs.
    + cbn. lia.
Qed.

Lemma ping_end_to_end_witness :
  exists datagram,
    writePing 7 (mkConn None None None (inl "unused"%string)) (-1) =
      (Ok tt, [SetWriteDeadline 5; WriteToUDP datagram]) /\
    length datagram = 19%nat /\
    forall (MaxPacketSize : nat) (receiver : Conn),
      readDeadlineErr receiver = None ->
      incoming receiver = inr datagram ->
      (19 <= MaxPacketSize)%nat ->
      exists m,
        readMessage MaxPacketSize receiver =
          (Ok m, [SetReadDeadline 5; ReadFromUDP]) /\
        handleMessage (Some m) = (Ok tt, [HandlePing 7 (-1)]).
Proof.
  apply (ping_end_to_end 7 (-1) (mkConn None None None (inl "unused"%string)));
    try reflexivity; unfold int32_range; simpl; lia.
Defined.

(** X8. A token longer than 1457 bytes is never sent: [writeHello] returns
    the encoder's error and makes no call on the connection, not even
    setting the write deadline. *)
Theorem writeHello_oversize (token : list byte) (conn : Conn) :
  1457 < Z.of_nat (length token) ->
  writeHello token conn =
    (Err "error creating message (message too long)", []).
Proof.
  intros H. unfold writeHello.
  rewrite (encodeMessage_eq (helloMessage token)).
  cbn [payload helloMessage].
  destruct (Z.ltb_spec 1457 (Z.of_nat (length token))); [reflexivity|lia].
Qed.

Lemma writeHello_oversize_witness :
  writeHello (repeat x61 1458) (mkConn None None None (inl "unused"%string)) =
    (Err "error creating message (message too long)", []).
Proof.
  apply writeHello_oversize. rewrite repeat_length. lia.
Defined.

(** X9. Two messages that encode to the same frame have the same sequence,
    fragment, ofFragments, messageType and payload. *)
Theorem encodeMessage_injective (m1 m2 : message) (buf : slice) :
  int32_range (sequence m1) -> int32_range (sequence m2) ->
  encodeMessage m1 = Ok buf -> encodeMessage m2 = Ok buf ->
  sequence m1 = sequence m2 /\ fragment m1 = fragment m2 /\
  ofFragments m1 = ofFragments m2 /\ messageType m1 = messageType m2 /\
  payload m1 = payload m2.
Proof.
  intros H1 H2 E1 E2.
  rewrite encodeMessage_eq in E1, E2.
  destruct (Z.ltb_spec 1457 (Z.of_nat (length (payload m1)))) as [|L1];
    [discriminate E1|].
  destruct (Z.ltb_spec 1457 (Z.of_nat (length (payload m2)))) as [|L2];
    [discriminate E2|].
  injection E1 as E1. injection E2 as E2.
  pose proof (decode_frame m1 H1 L1) as D1.
  pose proof (decode_frame m2 H2 L2) as D2.
  rewrite E1 in D1. rewrite E2 in D2. rewrite D1 in D2.
  injection D2 as -> -> -> -> ->. repeat split; reflexivity.
Qed.

Lemma encodeMessage_injective_witness :
  sequence (helloMessage [x61]) = sequence (mkMessage (-1) x00 x01 Hello 9 9 [x61]) /\
  fragment (helloMessage [x61]) = fragment (mkMessage (-1) x00 x01 Hello 9 9 [x61]) /\
  ofFragments (helloMessage [x61]) = ofFragments (mkMessage (-1) x00 x01 Hello 9 9 [x61]) /\
  messageType (helloMessage [x61]) = messageType (mkMessage (-1) x00 x01 Hello 9 9 [x61]) /\
  payload (helloMessage [x61]) = payload (mkMessage (-1) x00 x01 Hello 9 9 [x61]).
Proof.
  apply (encodeMessage_injective (helloMessage [x61])
           (mkMessage (-1) x00 x01 Hello 9 9 [x61])
           (ofList [x01; x02; x02; x00; xff; xff; xff; xff; x00; x01; x00;
                    x00; x00; x01; x00; x61]));
    try (vm_compute; reflexivity); unfold int32_range; simpl; lia.
Defined.

(** X10. With a handler that is not nil, both dispatch functions call it
    exactly when they return nil, and then exactly once; on every error no
    call is made. [handleHello] returns an error on a nil message and never
    faults; [handleMessage] faults on a nil message, where it makes no call,
    and on no other message. *)
Theorem handlers_call_iff_nil :
  (forall m : option message,
     (fst (handleHello m) = Ok tt /\
      exists token, snd (handleHello m) = [HandleHello token]) \/
     ((exists e, fst (handleHello m) = Err e) /\ snd (handleHello m) = [])) /\
  handleHello None = (Err "nil message", []) /\
  (forall msg : message,
     (fst (handleMessage (Some msg)) = Ok tt /\
      exists seq replyFor,
        snd (handleMessage (Some msg)) = [HandlePing seq replyFor]) \/
     ((exists e, fst (handleMessage (Some msg)) = Err e) /\
      snd (handleMessage (Some msg)) = [])) /\
  handleMessage None = (Panic, []).
Proof.
  split; [|split; [reflexivity|split; [|reflexivity]]].
  - intros m. unfold handleHello.
    destruct m as [m|]; [|right; split; [eexists|]; reflexivity].
    destruct (Byte.eqb (messageType m) Hello);
      [|right; split; [eexists|]; reflexivity].
    destruct (negb (sequence m =? -1));
      [right; split; [eexists|]; reflexivity|].
    destruct (negb (Byte.eqb (fragment m) x00) || negb (Byte.eqb (ofFragments m) x01));
      [right; split; [eexists|]; reflexivity|].
    left. split; [|eexists]; reflexivity.
  - intros m. unfold handleMessage.
    destruct (Byte.eqb (messageType m) Ping);
      [|right; split; [eexists|]; reflexivity].
    destruct (negb (Byte.eqb (fragment m) x00) || negb (Byte.eqb (ofFragments m) x01));
      [right; split; [eexists|]; reflexivity|].
    destruct (Nat.lt_ge_cases (length (payload m)) 4) as [Hlt|Hge].
    + destruct (readInt32_short _ Hlt) as [e ->].
      right; split; [eexists|]; reflexivity.
    + rewrite (readInt32_enough _ Hge).
      left. split; [|do 2 eexists]; reflexivity.
Qed.

End LinkFacts.

(** ** Cluster join: bootstrap and what follows *)

Section JoinRuns.

Import Controller.

Variable raftT : Type.
Variable LastIndex : raftT -> Z.
Variable BootstrapCluster : raftT -> list Server -> raftT * option error.
Variable HandleJoin : Controller raftT -> JoinRequest -> Controller raftT * option error.

Local Abbreviation Join := (Controller.Join raftT LastIndex BootstrapCluster HandleJoin).
Local Abbreviation JoinAll := (Controller.JoinAll raftT LastIndex BootstrapCluster HandleJoin).

Lemma votingCount_range (l : list Server) : 0 <= votingCount l < 2 ^ 32.
Proof.
  induction l as [|s l IH] using rev_ind.
  - cbn. lia.
  - rewrite votingCount_app. destruct (isVoterSuffrage (Suffrage s)); [|exact IH].
    apply Z.mod_pos_bound. lia.
Qed.


(** [Join] on a controller that is still waiting, written out. *)
Lemma Join_waiting (self : Controller raftT) (req : JoinRequest) :
  complete req -> bootstrapped self = false -> LastIndex (Raft self) <= 0 ->
  Join self req =
  let servers' := servers self ++ [serverOf req] in
  if MinClusterSize self <=? votingCount servers' then
    match BootstrapCluster (Raft self) servers' with
    | (raft', Some err) =>
        (mkController false servers' (MinClusterSize self) raft',
         Some (Wrap err "failed to bootstrap cluster"),
         [CallBootstrapCluster servers'])
    | (raft', None) =>
        (mkController true servers' (MinClusterSize self) raft',
         None, [CallBootstrapCluster servers'])
    end
  else (mkController false servers' (MinClusterSize self) (Raft self), None, []).
Proof.
  intros [Hid Had] Hb Hl. unfold Controller.Join.
  rewrite (eqb_empty_false _ Hid), (eqb_empty_false _ Had), Hb.
  destruct (Z.ltb_spec 0 (LastIndex (Raft self))) as [|_]; [lia|].
  cbn [orb]. cbv zeta.
  destruct (MinClusterSize self <=? votingCount (servers self ++ [serverOf req]));
    [|reflexivity].
  destruct (BootstrapCluster (Raft self) (servers self ++ [serverOf req]))
    as [raft' [err|]]; reflexivity.
Qed.




(** On a controller whose [bootstrapped] flag is set, [Join] hands every
    complete request to [HandleJoin] and does nothing else. *)
Lemma Join_bootstrapped (self : Controller raftT) (req : JoinRequest) :
  bootstrapped self = true -> complete req ->
  Join self req =
    (fst (HandleJoin self req), snd (HandleJoin self req), [CallHandleJoin req]).
Proof.
  intros Hb [Hid Had]. unfold Controller.Join.
  rewrite (eqb_empty_false _ Hid), (eqb_empty_false _ Had), Hb.
  cbn [orb]. now destruct (HandleJoin self req).
Qed.

(** A run of requests on a bootstrapped controller, when [HandleJoin] never
    clears the flag: the flag stays set and no request, complete or not,
    makes [Join] call [BootstrapCluster]. *)
Lemma JoinAll_bootstrapped (reqs : list JoinRequest) (self : Controller raftT) :
  (forall c r, bootstrapped c = true -> bootstrapped (fst (HandleJoin c r)) = true) ->
  bootstrapped self = true ->
  bootstrapped (fst (fst (JoinAll self reqs))) = true /\
  Forall (fun ev => exists r, In r reqs /\ ev = CallHandleJoin r)
         (snd (JoinAll self reqs)) /\
  (Forall complete reqs -> snd (JoinAll self reqs) = map CallHandleJoin reqs).
Proof.
  intros Hkeep. revert self.
  induction reqs as [|req rest IH]; intros self Hb.
  - cbn. repeat split; [exact Hb|constructor].
  - cbn [Controller.JoinAll].
    assert (Hstep : exists self1 err eff,
               Join self req = (self1, err, eff) /\
               bootstrapped self1 = true /\
               (eff = [] \/ eff = [CallHandleJoin req]) /\
               (complete req -> eff = [CallHandleJoin req])).
    { unfold Controller.Join.
      destruct (String.eqb_spec (Id req) "") as [Ei|Ni].
      { do 3 eexists. split; [reflexivity|]. split; [exact Hb|].
        split; [now left|]. intros [Hc _]. contradiction. }
      destruct (String.eqb_spec (Addr req) "") as [Ea|Na].
      { do 3 eexists. split; [reflexivity|]. split; [exact Hb|].
        split; [now left|]. intros [_ Hc]. contradiction. }
      rewrite Hb. cbn [orb].
      pose proof (Hkeep self req Hb) as Hk.
      destruct (HandleJoin self req) as [c e]. cbn [fst] in Hk.
      do 3 eexists. split; [reflexivity|]. split; [exact Hk|].
      split; [now right|]. intros _. reflexivity. }
    destruct Hstep as (self1 & err & eff & -> & Hb1 & Heff & Hc).
    destruct (IH self1 Hb1) as (IHb & IHall & IHc).
    destruct (JoinAll self1 rest) as [[self2 errs] effs].
    cbn [fst snd] in *. split; [exact IHb|]. split.
    + apply Forall_app. split.
      * destruct Heff as [-> | ->]; [constructor|].
        constructor; [|constructor]. exists req. split; [now left|reflexivity].
      * eapply Forall_impl; [|exact IHall].
        intros ev (r & Hin & ->). exists r. split; [now right|reflexivity].
    + intros Hall. inversion Hall as [|? ? Hreq Hrest]; subst.
      rewrite (Hc Hreq), (IHc Hrest). reflexivity.
Qed.

(** X12. A successful bootstrap happens once. When [BootstrapCluster]
    returns nil, [Join] returns nil and sets [bootstrapped]. On any
    controller whose flag is set, a complete request is handed to
    [HandleJoin] and [Join] does nothing else. So, provided [HandleJoin]
    (which is not among the sources) never clears the flag, in every run of
    later requests the flag stays set, every call made is a [HandleJoin] of
    one of those requests, one per complete request, and [BootstrapCluster]
    is not called again. *)
Theorem Join_bootstrap_then_live
    (self : Controller raftT) (req : JoinRequest) (raft' : raftT) :
  complete req -> bootstrapped self = false -> LastIndex (Raft self) <= 0 ->
  MinClusterSize self <= votingCount (servers self ++ [serverOf req]) ->
  BootstrapCluster (Raft self) (servers self ++ [serverOf req]) = (raft', None) ->
  let self' := mkController true (servers self ++ [serverOf req])
                 (MinClusterSize self) raft' in
  Join self req = (self', None, [CallBootstrapCluster (servers self ++ [serverOf req])]) /\
  (forall (c : Controller raftT) (later : JoinRequest),
     bootstrapped c = true -> complete later ->
     Join c later =
       (fst (HandleJoin c later), snd (HandleJoin c later), [CallHandleJoin later])) /\
  ((forall c r, bootstrapped c = true -> bootstrapped (fst (HandleJoin c r)) = true) ->
   forall later : list JoinRequest,
     bootstrapped (fst (fst (JoinAll self' later))) = true /\
     Forall (fun ev => exists r, In r later /\ ev = CallHandleJoin r)
            (snd (JoinAll self' later)) /\
     (Forall complete later ->
      snd (JoinAll self' later) = map CallHandleJoin later)).
Proof.
  intros Hc Hb Hl Hv Hboot. cbv zeta. split; [|split].
  - rewrite (Join_waiting self req Hc Hb Hl). cbv zeta.
    destruct (Z.leb_spec (MinClusterSize self)
                (votingCount (servers self ++ [serverOf req]))); [|lia].
    rewrite Hboot. reflexivity.
  - intros c later Hbc Hlater. now apply Join_bootstrapped.
  - intros Hkeep later. now apply JoinAll_bootstrapped.
Qed.

(** X13. A failed bootstrap is reported but not undone: when
    [BootstrapCluster] returns an error, [Join] returns it wrapped and leaves
    [bootstrapped] false, yet the request stays in the pending servers; when
    the same request is sent again while the log is still empty, the server
    is listed twice in the next bootstrap attempt. *)
Theorem Join_bootstrap_failure_keeps_pending
    (self : Controller raftT) (req : JoinRequest) (raft' : raftT) (err : error) :
  complete req -> bootstrapped self = false -> LastIndex (Raft self) <= 0 ->
  MinClusterSize self <= votingCount (servers self ++ [serverOf req]) ->
  BootstrapCluster (Raft self) (servers self ++ [serverOf req]) = (raft', Some err) ->
  let self' := mkController false (servers self ++ [serverOf req])
                 (MinClusterSize self) raft' in
  Join self req =
    (self', Some (Wrap err "failed to bootstrap cluster"),
     [CallBootstrapCluster (servers self ++ [serverOf req])]) /\
  (LastIndex raft' <= 0 ->
   votingCount (servers self ++ [serverOf req]) + 1 < 2 ^ 32 ->
   snd (Join self' req) =
     [CallBootstrapCluster (servers self ++ [serverOf req; serverOf req])]).
Proof.
  intros Hc Hb Hl Hv Hboot. cbv zeta. split.
  - rewrite (Join_waiting self req Hc Hb Hl). cbv zeta.
    destruct (Z.leb_spec (MinClusterSize self)
                (votingCount (servers self ++ [serverOf req]))); [|lia].
    rewrite Hboot. reflexivity.
  - intros Hl' Hw.
    rewrite Join_waiting; [|exact Hc|reflexivity|exact Hl'].
    cbv zeta. cbn [servers MinClusterSize Raft].
    pose proof (votingCount_range (servers self ++ [serverOf req])) as Hr.
    assert (Hge : MinClusterSize self
                  <= votingCount ((servers self ++ [serverOf req]) ++ [serverOf req])).
    { rewrite votingCount_app.
      destruct (isVoterSuffrage (Suffrage (serverOf req))); [|exact Hv].
      rewrite Z.mod_small by lia. lia. }
    destruct (Z.leb_spec (MinClusterSize self)
                (votingCount ((servers self ++ [serverOf req]) ++ [serverOf req])));
      [|lia].
    rewrite <- app_assoc. cbn [app].
    destruct (BootstrapCluster raft' (servers self ++ [serverOf req; serverOf req]))
      as [r [e|]]; reflexivity.
Qed.

(** X14. With [MinClusterSize] 0 the first complete request makes [Join]
    call [BootstrapCluster] at once, whatever its voter flag; with no pending
    servers and the flag set, the configuration passed is that one server as
    a non-voter. What [Join] returns follows the call: when it returns nil,
    [Join] returns nil and sets [bootstrapped]; when it returns an error,
    [Join] returns it wrapped and [bootstrapped] stays false. *)
Theorem Join_zero_min_calls_bootstrap_at_once
    (self : Controller raftT) (req : JoinRequest) :
  complete req -> bootstrapped self = false -> LastIndex (Raft self) <= 0 ->
  MinClusterSize self = 0 ->
  Join self req =
    match BootstrapCluster (Raft self) (servers self ++ [serverOf req]) with
    | (raft', None) =>
        (mkController true (servers self ++ [serverOf req]) 0 raft', None,
         [CallBootstrapCluster (servers self ++ [serverOf req])])
    | (raft', Some err) =>
        (mkController false (servers self ++ [serverOf req]) 0 raft',
         Some (Wrap err "failed to bootstrap cluster"),
         [CallBootstrapCluster (servers self ++ [serverOf req])])
    end /\
  (servers self = [] -> IsVoter req = true ->
   servers self ++ [serverOf req] = [mkServer (Id req) (Addr req) Nonvoter]).
Proof.
  intros Hc Hb Hl Hz. split.
  - rewrite (Join_waiting self req Hc Hb Hl). cbv zeta. rewrite Hz.
    pose proof (votingCount_range (servers self ++ [serverOf req])) as Hr.
    destruct (Z.leb_spec 0 (votingCount (servers self ++ [serverOf req]))); [|lia].
    destruct (BootstrapCluster (Raft self) (servers self ++ [serverOf req]))
      as [r [e|]]; reflexivity.
  - intros -> Hf. unfold serverOf. rewrite Hf. reflexivity.
Qed.

End JoinRuns.


Lemma Join_bootstrap_then_live_witness :
  let HandleJoin :=
    fun (c : Controller.Controller Z) (_ : Controller.JoinRequest) =>
      (c, @None Controller.error) in
  let Join := Controller.Join Z (fun r => r) (fun _ _ => (1, None)) HandleJoin in
  let JoinAll := Controller.JoinAll Z (fun r => r) (fun _ _ => (1, None)) HandleJoin in
  let self' :=
    Controller.mkController true
      ([] ++ [Controller.serverOf (Controller.mkJoinRequest "a:1" "a" false)]) 1 1 in
  Join (Controller.mkController false [] 1 0)
       (Controller.mkJoinRequest "a:1" "a" false) =
    (self', None,
     [Controller.CallBootstrapCluster
        ([] ++ [Controller.serverOf (Controller.mkJoinRequest "a:1" "a" false)])]) /\
  (forall (c : Controller.Controller Z) (later : Controller.JoinRequest),
     Controller.bootstrapped c = true -> complete later ->
     Join c later =
       (fst (HandleJoin c later), snd (HandleJoin c later),
        [Controller.CallHandleJoin later])) /\
  ((forall c r, Controller.bootstrapped c = true ->
                Controller.bootstrapped (fst (HandleJoin c r)) = true) ->
   forall later : list Controller.JoinRequest,
     Controller.bootstrapped (fst (fst (JoinAll self' later))) = true /\
     Forall (fun ev => exists r, In r later /\ ev = Controller.CallHandleJoin r)
            (snd (JoinAll self' later)) /\
     (Forall complete later ->
      snd (JoinAll self' later) = map Controller.CallHandleJoin later)).
Proof.
  cbv zeta.
  apply (Join_bootstrap_then_live Z (fun r => r) (fun _ _ => (1, None))
           (fun c _ => (c, None))
           (Controller.mkController false [] 1 0)
           (Controller.mkJoinRequest "a:1" "a" false) 1).
  - split; discriminate.
  - reflexivity.
  - simpl. lia.
  - vm_compute. discriminate.
  - reflexivity.
Defined.

Lemma Join_bootstrap_failure_keeps_pending_witness :
  let Join :=
    Controller.Join Z (fun r => r)
      (fun _ _ => (0, Some (Controller.Errorf "bootstrap only works on new clusters")))
      (fun c _ => (c, None)) in
  let self' :=
    Controller.mkController false
      ([] ++ [Controller.serverOf (Controller.mkJoinRequest "a:1" "a" false)]) 1 0 in
  Join (Controller.mkController false [] 1 0)
       (Controller.mkJoinRequest "a:1" "a" false) =
    (self',
     Some (Controller.Wrap
             (Controller.Errorf "bootstrap only works on new clusters")
             "failed to bootstrap cluster"),
     [Controller.CallBootstrapCluster
        ([] ++ [Controller.serverOf (Controller.mkJoinRequest "a:1" "a" false)])]) /\
  (0 <= 0 ->
   Controller.votingCount
     ([] ++ [Controller.serverOf (Controller.mkJoinRequest "a:1" "a" false)]) + 1
   < 2 ^ 32 ->
   snd (Join self' (Controller.mkJoinRequest "a:1" "a" false)) =
     [Controller.CallBootstrapCluster
        ([] ++ [Controller.serverOf (Controller.mkJoinRequest "a:1" "a" false);
                Controller.serverOf (Controller.mkJoinRequest "a:1" "a" false)])]).
Proof.
  cbv zeta.
  apply (Join_bootstrap_failure_keeps_pending Z (fun r => r)
           (fun _ _ => (0, Some (Controller.Errorf "bootstrap only works on new clusters")))
           (fun c _ => (c, None))
           (Controller.mkController false [] 1 0)
           (Controller.mkJoinRequest "a:1" "a" false) 0).
  - split; discriminate.
  - reflexivity.
  - simpl. lia.
  - vm_compute. discriminate.
  - reflexivity.
Defined.

Lemma Join_zero_min_calls_bootstrap_at_once_witness :
  Controller.Join Z (fun r => r)
    (fun _ _ => (0, Some (Controller.Errorf "need at least one voter in configuration")))
    (fun c _ => (c, None))
    (Controller.mkController false [] 0 0)
    (Controller.mkJoinRequest "a:1" "a" true) =
    (Controller.mkController false
       [Controller.mkServer "a" "a:1" Controller.Nonvoter] 0 0,
     Some (Controller.Wrap
             (Controller.Errorf "need at least one voter in configuration")
             "failed to bootstrap cluster"),
     [Controller.CallBootstrapCluster
        [Controller.mkServer "a" "a:1" Controller.Nonvoter]]) /\
  (@nil Controller.Server = [] -> true = true ->
   [] ++ [Controller.serverOf (Controller.mkJoinRequest "a:1" "a" true)] =
   [Controller.mkServer "a" "a:1" Controller.Nonvoter]).
Proof.
  apply (Join_zero_min_calls_bootstrap_at_once Z (fun r => r)
           (fun _ _ => (0, Some (Controller.Errorf "need at least one voter in configuration")))
           (fun c _ => (c, None))
           (Controller.mkController false [] 0 0)
           (Controller.mkJoinRequest "a:1" "a" true)).
  - split; discriminate.
  - reflexivity.
  - simpl. lia.
  - reflexivity.
Defined.


(** ** Command dispatch: leader and follower paths *)

Section DispatchPaths.

Import Controller.

Variables NewLogEntryType SuccessResponseType ErrorResponseType : Z.
Variables HeaderErrorCode ErrorCodeApiError : Z.
Variable Peer : Type.

Local Abbreviation Dispatch :=
  (Controller.Dispatch NewLogEntryType SuccessResponseType ErrorResponseType
     HeaderErrorCode ErrorCodeApiError Peer).
Local Abbreviation interpretReply :=
  (Controller.interpretReply SuccessResponseType ErrorResponseType
     HeaderErrorCode ErrorCodeApiError Peer).

Lemma interpretReply_no_effect (env : Env Peer) (reply : Reply) :
  snd (interpretReply env reply) = [].
Proof.
  unfold Controller.interpretReply.
  destruct (ContentType reply =? SuccessResponseType); [reflexivity|].
  destruct (ContentType reply =? ErrorResponseType); [|reflexivity].
  destruct (GetUint32Header reply HeaderErrorCode) as [code|]; [|reflexivity].
  destruct (code =? ErrorCodeApiError); [|reflexivity].
  destruct (Unmarshal env (Body reply)); reflexivity.
Qed.

Lemma interpretReply_nil_iff (env : Env Peer) (reply : Reply) :
  fst (interpretReply env reply) = inr tt <->
  ContentType reply = SuccessResponseType.
Proof.
  unfold Controller.interpretReply.
  destruct (Z.eqb_spec (ContentType reply) SuccessResponseType) as [E|E].
  - split; [intros _; exact E|reflexivity].
  - split; [|contradiction].
    destruct (ContentType reply =? ErrorResponseType); [|discriminate].
    destruct (GetUint32Header reply HeaderErrorCode) as [code|]; [|discriminate].
    destruct (code =? ErrorCodeApiError); [|discriminate].
    destruct (Unmarshal env (Body reply)); discriminate.
Qed.

(** X15. A command goes one way only: on the leader [Dispatch] never asks
    for the leader, connects to a peer or sends the command; on any other
    node it never applies the command to the local raft log. *)
Theorem Dispatch_leader_or_forward (env : Env Peer) (cmd : Command) :
  Forall (fun ev => (if IsLeader env then isForward ev else isLocalApply ev) = false)
         (snd (Dispatch env cmd)).
Proof.
  unfold Controller.Dispatch.
  destruct (Validate cmd) as [[err|]|]; [constructor| |];
    (destruct (IsLeader env);
     [ unfold applyCommand, ApplyEncodedCommand, ApplyWithTimeout;
       cbn [andThen perform];
       destruct (Encode cmd) as [e|encoded]; cbn; [repeat constructor|];
       destruct (RaftApply env encoded) as [e|[|e|]]; cbn;
       try (destruct (Decode env encoded)); cbn; repeat constructor
     | cbn [andThen perform];
       destruct (GetOrConnectPeer env (LeaderAddr env)) as [e|peer]; cbn;
       [repeat constructor|];
       destruct (Encode cmd) as [e|encoded]; cbn; [repeat constructor|];
       destruct (SendForReply env peer NewLogEntryType encoded) as [e|reply]; cbn;
       [repeat constructor|];
       pose proof (interpretReply_no_effect env reply) as Hn;
       destruct (interpretReply env reply) as [[e|[]] t]; cbn in Hn; subst t;
       cbn; repeat constructor ]).
Qed.

(** X16. Forwarding: on a node that is not the leader, when the leader's
    peer is reached, the command encodes and a reply arrives, [Dispatch]
    makes the five interactions in order and returns nil exactly when the
    reply's content type is the success type. *)
Theorem Dispatch_follower_nil_iff_success
    (env : Env Peer) (cmd : Command) (peer : Peer) (encoded : list byte)
    (reply : Reply) :
  valid cmd -> IsLeader env = false ->
  GetOrConnectPeer env (LeaderAddr env) = inr peer ->
  Encode cmd = inr encoded ->
  SendForReply env peer NewLogEntryType encoded = inr reply ->
  snd (Dispatch env cmd) =
    [ReadRaftState; ReadLeaderWithID; CallGetOrConnectPeer (LeaderAddr env);
     CallEncode; CallSendForReply NewLogEntryType encoded] /\
  (fst (Dispatch env cmd) = None <-> ContentType reply = SuccessResponseType).
Proof.
  intros Hv Hl Hp He Hs.
  pose proof (interpretReply_no_effect env reply) as Hn.
  pose proof (interpretReply_nil_iff env reply) as Hi.
  unfold Controller.Dispatch.
  destruct Hv as [-> | ->]; rewrite Hl; cbn [andThen perform];
    rewrite Hp; cbn; rewrite He; cbn; rewrite Hs; cbn;
    destruct (interpretReply env reply) as [[e|[]] t]; cbn in *; subst t;
    (split; [reflexivity|]); rewrite <- Hi; split; intros H;
    try discriminate H; reflexivity.
Qed.

(** X17. A command that cannot be encoded is never submitted: whatever the
    node's role, [Dispatch] returns an error, applies nothing to the raft log
    and sends nothing to the leader. *)
Theorem Dispatch_unencodable_never_submitted
    (env : Env Peer) (cmd : Command) (err : error) :
  Encode cmd = inl err ->
  fst (Dispatch env cmd) <> None /\
  Forall (fun ev => match ev with
                    | CallRaftApply _ | CallSendForReply _ _ => False
                    | _ => True
                    end) (snd (Dispatch env cmd)) /\
  (valid cmd -> IsLeader env = true ->
   Dispatch env cmd = (Some err, [ReadRaftState; CallEncode])).
Proof.
  intros He. unfold valid, Controller.Dispatch, applyCommand.
  destruct (Validate cmd) as [[verr|]|];
    [ repeat split; [discriminate|constructor|intros [H|H]; discriminate H] | | ];
    (destruct (IsLeader env); cbn [andThen perform];
     [ rewrite He; cbn; repeat split;
       [discriminate|repeat constructor]
     | destruct (GetOrConnectPeer env (LeaderAddr env)) as [e|peer]; cbn;
       [|rewrite He; cbn]; repeat split;
       try discriminate; repeat constructor ]).
Qed.

(** X18. On the leader a valid command is encoded once and applied once to
    the raft log, and the result follows the apply future: its error, the
    error the state machine returned as response, nil for a nil response;
    for any other response nil as well, unless the command fails to decode
    again. *)
Theorem Dispatch_leader_result
    (env : Env Peer) (cmd : Command) (encoded : list byte) :
  valid cmd -> IsLeader env = true -> Encode cmd = inr encoded ->
  Dispatch env cmd =
    match RaftApply env encoded with
    | inl err => (Some err, [ReadRaftState; CallEncode; CallRaftApply encoded])
    | inr ValNil => (None, [ReadRaftState; CallEncode; CallRaftApply encoded])
    | inr (ValError err) =>
        (Some err, [ReadRaftState; CallEncode; CallRaftApply encoded])
    | inr ValOther =>
        (Decode env encoded,
         [ReadRaftState; CallEncode; CallRaftApply encoded; CallDecode encoded])
    end.
Proof.
  intros Hv Hl He. unfold Controller.Dispatch.
  destruct Hv as [-> | ->];
    unfold applyCommand, ApplyEncodedCommand, ApplyWithTimeout;
    rewrite Hl; cbn; rewrite He; cbn;
    destruct (RaftApply env encoded) as [e|[|e|]]; cbn; try reflexivity;
    destruct (Decode env encoded); reflexivity.
Qed.

End DispatchPaths.

Lemma Dispatch_follower_nil_iff_success_witness :
  let env :=
    Controller.mkEnv unit false "ctrl1:6262"
      (fun _ => inr tt) (fun _ => inr Controller.ValNil)
      (fun _ _ _ => inr (Controller.mkReply 2 (fun _ => None) []))
      (fun _ => None) (fun _ => None) in
  let cmd := Controller.mkCommand None (inr [x01]) in
  snd (Controller.Dispatch 1 2 3 4 5 unit env cmd) =
    [Controller.ReadRaftState; Controller.ReadLeaderWithID;
     Controller.CallGetOrConnectPeer (Controller.LeaderAddr env);
     Controller.CallEncode; Controller.CallSendForReply 1 [x01]] /\
  (fst (Controller.Dispatch 1 2 3 4 5 unit env cmd) = None <->
   Controller.ContentType (Controller.mkReply 2 (fun _ => None) []) = 2).
Proof.
  cbv zeta.
  apply (Dispatch_follower_nil_iff_success 1 2 3 4 5 unit
           (Controller.mkEnv unit false "ctrl1:6262"
              (fun _ => inr tt) (fun _ => inr Controller.ValNil)
              (fun _ _ _ => inr (Controller.mkReply 2 (fun _ => None) []))
              (fun _ => None) (fun _ => None))
           (Controller.mkCommand None (inr [x01])) tt [x01]
           (Controller.mkReply 2 (fun _ => None) [])).
  - left. reflexivity.
  - reflexivity.
  - reflexivity.
  - reflexivity.
  - reflexivity.
Defined.

Lemma Dispatch_unencodable_never_submitted_witness :
  let env :=
    Controller.mkEnv unit false "ctrl1:6262"
      (fun _ => inr tt) (fun _ => inr Controller.ValNil)
      (fun _ _ _ => inr (Controller.mkReply 2 (fun _ => None) []))
      (fun _ => None) (fun _ => None) in
  let cmd := Controller.mkCommand None (inl (Controller.Errorf "cannot encode")) in
  fst (Controller.Dispatch 1 2 3 4 5 unit env cmd) <> None /\
  Forall (fun ev => match ev with
                    | Controller.CallRaftApply _
                    | Controller.CallSendForReply _ _ => False
                    | _ => True
                    end) (snd (Controller.Dispatch 1 2 3 4 5 unit env cmd)) /\
  (valid cmd -> Controller.IsLeader env = true ->
   Controller.Dispatch 1 2 3 4 5 unit env cmd =
     (Some (Controller.Errorf "cannot encode"),
      [Controller.ReadRaftState; Controller.CallEncode])).
Proof.
  cbv zeta.
  apply (Dispatch_unencodable_never_submitted 1 2 3 4 5 unit).
  reflexivity.
Defined.

Lemma Dispatch_leader_result_witness :
  let env :=
    Controller.mkEnv unit true "ctrl1:6262"
      (fun _ => inr tt) (fun _ => inr Controller.ValOther)
      (fun _ _ _ => inl (Controller.Errorf "timeout"))
      (fun _ => None) (fun _ => None) in
  Controller.Dispatch 1 2 3 4 5 unit env
    (Controller.mkCommand (Some None) (inr [x01])) =
  (None,
   [Controller.ReadRaftState; Controller.CallEncode;
    Controller.CallRaftApply [x01]; Controller.CallDecode [x01]]).
Proof.
  cbv zeta.
  apply (Dispatch_leader_result 1 2 3 4 5 unit
           (Controller.mkEnv unit true "ctrl1:6262"
              (fun _ => inr tt) (fun _ => inr Controller.ValOther)
              (fun _ _ _ => inl (Controller.Errorf "timeout"))
              (fun _ => None) (fun _ => None))
           (Controller.mkCommand (Some None) (inr [x01])) [x01]).
  - right. reflexivity.
  - reflexivity.
  - reflexivity.
Defined.

(** ** The node id file *)

Section NodeIdFacts.

Import Controller NodeId.

Lemma initializeId_nil_inv
    (newUuid : string) (WriteFile : string -> IdFile * option error)
    (tempId : string) (idFile : IdFile) :
  honest WriteFile ->
  snd (initializeId newUuid WriteFile tempId idFile) = None ->
  snd (fst (initializeId newUuid WriteFile tempId idFile)) =
    Present (fst (fst (initializeId newUuid WriteFile tempId idFile))).
Proof.
  intros Hw. unfold initializeId.
  destruct idFile as [|id|err].
  - destruct (WriteFile (if String.eqb tempId "" then newUuid else tempId))
      as [f [e|]] eqn:E; cbn; intros H; try discriminate H.
    now apply Hw.
  - destruct (negb (String.eqb tempId "") && negb (String.eqb tempId id));
      cbn; intros H; [discriminate H|reflexivity].
  - cbn. intros H. discriminate H.
Qed.

(** X19. Whenever [initializeId] returns nil, with a file system whose
    successful writes store what was written, the id file holds exactly the
    id the controller ends with. *)
Theorem initializeId_persists
    (newUuid : string) (WriteFile : string -> IdFile * option error)
    (tempId : string) (idFile : IdFile) :
  honest WriteFile ->
  snd (initializeId newUuid WriteFile tempId idFile) = None ->
  snd (fst (initializeId newUuid WriteFile tempId idFile)) =
    Present (fst (fst (initializeId newUuid WriteFile tempId idFile))).
Proof. apply initializeId_nil_inv. Qed.

(** X20. Starting twice gives the same id: after a call that returned nil,
    a second call, with any fresh uuid and any behaviour of the file system
    on writes, returns nil and leaves both the controller's id and the id
    file as they were. *)
Theorem initializeId_idempotent
    (newUuid : string) (WriteFile : string -> IdFile * option error)
    (tempId : string) (idFile : IdFile)
    (newUuid2 : string) (WriteFile2 : string -> IdFile * option error) :
  honest WriteFile ->
  snd (initializeId newUuid WriteFile tempId idFile) = None ->
  initializeId newUuid2 WriteFile2
    (fst (fst (initializeId newUuid WriteFile tempId idFile)))
    (snd (fst (initializeId newUuid WriteFile tempId idFile))) =
  (fst (fst (initializeId newUuid WriteFile tempId idFile)),
   snd (fst (initializeId newUuid WriteFile tempId idFile)), None).
Proof.
  intros Hw H.
  rewrite (initializeId_nil_inv newUuid WriteFile tempId idFile Hw H).
  unfold initializeId at 1.
  rewrite String.eqb_refl. cbn [negb andb]. rewrite andb_false_r. reflexivity.
Qed.

(** X21. An existing id file is never rewritten. A controller that
    specifies no id, or the id in the file, adopts the file's content; a
    controller that specifies another id gets an error and keeps its id. *)
Theorem initializeId_existing_file
    (newUuid : string) (WriteFile : string -> IdFile * option error)
    (tempId id : string) :
  (tempId = ""%string \/ tempId = id ->
   initializeId newUuid WriteFile tempId (Present id) = (id, Present id, None)) /\
  (tempId <> ""%string -> tempId <> id ->
   exists err,
     initializeId newUuid WriteFile tempId (Present id) =
       (tempId, Present id, Some err)).
Proof.
  unfold initializeId. split.
  - intros [-> | ->].
    + reflexivity.
    + rewrite String.eqb_refl. cbn [negb]. now rewrite andb_false_r.
  - intros H1 H2.
    apply String.eqb_neq in H1, H2. rewrite H1, H2. cbn [negb andb].
    eexists. reflexivity.
Qed.

End NodeIdFacts.

Lemma initializeId_persists_witness :
  snd (fst (NodeId.initializeId "node-7" (fun s => (NodeId.Present s, None))
              "" NodeId.Absent)) =
  NodeId.Present
    (fst (fst (NodeId.initializeId "node-7" (fun s => (NodeId.Present s, None))
                 "" NodeId.Absent))).
Proof.
  apply (initializeId_persists "node-7" (fun s => (NodeId.Present s, None))
           "" NodeId.Absent).
  - intros s f H. injection H as <-. reflexivity.
  - reflexivity.
Defined.

Lemma initializeId_idempotent_witness :
  NodeId.initializeId "node-8" (fun s => (NodeId.Absent, None))
    (fst (fst (NodeId.initializeId "node-7" (fun s => (NodeId.Present s, None))
                 "" NodeId.Absent)))
    (snd (fst (NodeId.initializeId "node-7" (fun s => (NodeId.Present s, None))
                 "" NodeId.Absent))) =
  (fst (fst (NodeId.initializeId "node-7" (fun s => (NodeId.Present s, None))
               "" NodeId.Absent)),
   snd (fst (NodeId.initializeId "node-7" (fun s => (NodeId.Present s, None))
               "" NodeId.Absent)), None).
Proof.
  apply (initializeId_idempotent "node-7" (fun s => (NodeId.Present s, None))
           "" NodeId.Absent "node-8" (fun s => (NodeId.Absent, None))).
  - intros s f H. injection H as <-. reflexivity.
  - reflexivity.
Defined.

(** ** Tracing: toggles and events *)

Section TraceFacts.

Import Trace TracePeek.

Variable SourceType : Type.
Variable SourceTypePipe : SourceType.
Variable SourceType_eqb : SourceType -> SourceType -> bool.

Local Abbreviation ToggleTracing :=
  (Trace.ToggleTracing SourceType SourceTypePipe SourceType_eqb).
Local Abbreviation DisableTracing :=
  (Trace.DisableTracing SourceType SourceTypePipe SourceType_eqb).
Local Abbreviation applyToggles :=
  (TracePeek.applyToggles SourceType SourceTypePipe SourceType_eqb).
Local Abbreviation toggleMatches :=
  (TracePeek.toggleMatches SourceType SourceTypePipe SourceType_eqb).

Lemma existsb_pointwise {A : Type} (f g : A -> bool) (l : list A) :
  (forall a, f a = g a) -> existsb f l = existsb g l.
Proof.
  intros H. induction l as [|a l IH]; [reflexivity|].
  cbn. now rewrite H, IH.
Qed.

Lemma ToggleTracing_fields (handler : ChannelPeekHandler)
    (sourceType : SourceType) (matcher : SourceMatcher) (b : bool) :
  let handler' := fst (ToggleTracing handler sourceType matcher b) in
  appId handler' = appId handler /\
  LogicalName handler' = LogicalName handler /\
  IsEnabled handler' =
    IsEnabled handler
    || (SourceType_eqb sourceType SourceTypePipe && matcher (LogicalName handler)).
Proof.
  unfold Trace.ToggleTracing. cbn [fst].
  destruct (SourceType_eqb sourceType SourceTypePipe && matcher (LogicalName handler)).
  - cbn. now rewrite orb_true_r.
  - now rewrite orb_false_r.
Qed.

(** X22. After any sequence of [EnableTracing] and [DisableTracing] calls
    a handler is enabled exactly when it was enabled before or one of the
    calls matched it, whether that call asked to enable or to disable; its
    application id and channel name are unchanged. *)
Theorem applyToggles_enabled
    (ts : list (Toggle SourceType)) (handler : ChannelPeekHandler) :
  IsEnabled (applyToggles handler ts) =
    IsEnabled handler || existsb (toggleMatches handler) ts /\
  appId (applyToggles handler ts) = appId handler /\
  LogicalName (applyToggles handler ts) = LogicalName handler.
Proof.
  revert handler. induction ts as [|t rest IH]; intros handler.
  - cbn. now rewrite orb_false_r.
  - cbn [TracePeek.applyToggles existsb].
    destruct (ToggleTracing_fields handler (toggleSource t) (toggleMatcher t)
                (toggleEnable t)) as (Ha & Hn & He).
    destruct (IH (fst (ToggleTracing handler (toggleSource t) (toggleMatcher t)
                         (toggleEnable t)))) as (IH1 & IH2 & IH3).
    cbv zeta in Ha, Hn, He.
    rewrite IH1, IH2, IH3, He, Ha, Hn.
    split; [|split; reflexivity].
    rewrite <- orb_assoc. f_equal.
    change (SourceType_eqb (toggleSource t) SourceTypePipe
            && toggleMatcher t (LogicalName handler))
      with (toggleMatches handler t).
    f_equal. apply existsb_pointwise. intros t'.
    unfold TracePeek.toggleMatches. now rewrite Hn.
Qed.

(** X23. The result of a matched [DisableTracing] reports the new trace
    state as false while the handler is in fact enabled afterwards. *)
Theorem DisableTracing_report_disagrees (handler : ChannelPeekHandler)
    (sourceType : SourceType) (matcher : SourceMatcher) :
  SourceType_eqb sourceType SourceTypePipe = true ->
  matcher (LogicalName handler) = true ->
  message (snd (DisableTracing handler sourceType matcher)) =
    ("Link " ++ appId handler ++ "." ++ LogicalName handler
     ++ " matched? true. Old trace state: " ++ showBool (IsEnabled handler)
     ++ ", New trace state: false")%string /\
  IsEnabled (fst (DisableTracing handler sourceType matcher)) = true.
Proof.
  intros Hs Hm. unfold Trace.DisableTracing, Trace.ToggleTracing.
  rewrite Hs, Hm. split; reflexivity.
Qed.

Variable ContentType_StreamTracesEventType : Z.
Variable decoders : list TraceMessageDecoder.
Variable now : Z.

Local Abbreviation trace :=
  (TracePeek.trace ContentType_StreamTracesEventType decoders now).
Local Abbreviation Rx :=
  (TracePeek.Rx ContentType_StreamTracesEventType decoders now).
Local Abbreviation Tx :=
  (TracePeek.Tx ContentType_StreamTracesEventType decoders now).

(** X24. [trace] hands an event to the sink exactly when the handler is
    enabled and the message is neither a trace event (content type 1010) nor
    a stream-traces event; the event then carries the handler's application
    id, the name of the channel passed in, the message's content type,
    sequence and reply-for, and the body length as an [int32]. *)
Theorem trace_emits_iff (handler : ChannelPeekHandler) (msg : Message)
    (ch : string) (rx : bool) :
  (trace handler msg ch rx =
     Some (mkChannelMessage now (appId handler) ch rx (ContentType msg)
             (Sequence msg) (ReplyFor msg)
             (toInt32 (Z.of_nat (length (Body msg))))
             (firstDecode decoders msg)) /\
   IsEnabled handler = true /\
   ContentType msg <> 1010 /\
   ContentType msg <> toInt32 ContentType_StreamTracesEventType)
  \/
  (trace handler msg ch rx = None /\
   (IsEnabled handler = false \/
    ContentType msg = 1010 \/
    ContentType msg = toInt32 ContentType_StreamTracesEventType)).
Proof.
  unfold TracePeek.trace.
  change (toInt32 ContentType_TraceEventType) with 1010.
  destruct (IsEnabled handler); cbn [negb orb].
  2:{ right. split; [reflexivity|now left]. }
  destruct (Z.eqb_spec (ContentType msg) 1010) as [E1|E1]; cbn [orb].
  { right. split; [reflexivity|right; now left]. }
  destruct (Z.eqb_spec (ContentType msg) (toInt32 ContentType_StreamTracesEventType))
    as [E2|E2].
  { right. split; [reflexivity|right; now right]. }
  left. repeat split; assumption.
Qed.

(** X25. Direction flags: for every message, [Rx] and [Tx] either both
    emit nothing or both emit an event, and the two events are equal except
    that the one from [Rx] has [IsRx] false and the one from [Tx] has [IsRx]
    true. *)
Theorem Rx_Tx_flags (handler : ChannelPeekHandler) (msg : Message) (ch : string) :
  match Rx handler msg ch, Tx handler msg ch with
  | Some r, Some t =>
      IsRx r = false /\ IsRx t = true /\
      t = mkChannelMessage (Timestamp r) (Identity r) (Channel r) true
            (MsgContentType r) (MsgSequence r) (MsgReplyFor r) (Length r)
            (Decode r)
  | None, None => True
  | _, _ => False
  end.
Proof.
  unfold TracePeek.Rx, TracePeek.Tx, TracePeek.trace.
  destruct (negb (IsEnabled handler)
            || (ContentType msg =? toInt32 ContentType_TraceEventType)
            || (ContentType msg =? toInt32 ContentType_StreamTracesEventType));
    [exact I|].
  cbn. repeat split.
Qed.

(** X26. The text of a traced event is that of the first decoder, in the
    order of [handler.decoders], that knows the message; decoders after it
    are not consulted, and when no decoder knows the message the text is
    empty. *)
Theorem trace_decode_first (handler : ChannelPeekHandler) (msg : Message)
    (ch : string) (rx : bool) (ev : ChannelMessage) :
  trace handler msg ch rx = Some ev ->
  (forall pre d post str,
     decoders = pre ++ d :: post ->
     Forall (fun p => p msg = None) pre ->
     d msg = Some str ->
     Decode ev = str) /\
  (Forall (fun p => p msg = None) decoders -> Decode ev = []).
Proof.
  unfold TracePeek.trace.
  destruct (negb (IsEnabled handler)
            || (ContentType msg =? toInt32 ContentType_TraceEventType)
            || (ContentType msg =? toInt32 ContentType_StreamTracesEventType));
    [discriminate|].
  intros H. injection H as <-. cbn [Decode]. split.
  - intros pre d post str -> Hpre Hd.
    induction pre as [|p pre IH]; cbn [app firstDecode].
    + now rewrite Hd.
    + inversion Hpre as [|? ? Hp Hrest]; subst. rewrite Hp. now apply IH.
  - intros Hall. induction decoders as [|p l IH]; [reflexivity|].
    inversion Hall as [|? ? Hp Hrest]; subst.
    cbn [firstDecode]. rewrite Hp. now apply IH.
Qed.

(** X27. A new handler traces nothing; a [DisableTracing] call that
    matches it switches tracing on: the next message that is not itself a
    trace event is handed to the sink. *)
Theorem DisableTracing_starts_tracing (appId ch : string)
    (sourceType : SourceType) (matcher : SourceMatcher) (msg : Message)
    (rx : bool) :
  SourceType_eqb sourceType SourceTypePipe = true ->
  matcher ch = true ->
  ContentType msg <> 1010 ->
  ContentType msg <> toInt32 ContentType_StreamTracesEventType ->
  trace (NewChannelPeekHandler appId ch) msg ch rx = None /\
  exists ev,
    trace (fst (DisableTracing (NewChannelPeekHandler appId ch) sourceType matcher))
          msg ch rx = Some ev /\
    Identity ev = appId /\ Channel ev = ch.
Proof.
  intros Hs Hm H1 H2. split; [reflexivity|].
  unfold Trace.DisableTracing, Trace.ToggleTracing, NewChannelPeekHandler.
  cbn [LogicalName]. rewrite Hs, Hm. cbn [andb fst].
  unfold TracePeek.trace, enable. cbn [IsEnabled enabled negb orb].
  change (toInt32 ContentType_TraceEventType) with 1010.
  destruct (Z.eqb_spec (ContentType msg) 1010) as [|_]; [contradiction|].
  destruct (Z.eqb_spec (ContentType msg) (toInt32 ContentType_StreamTracesEventType))
    as [|_]; [contradiction|].
  cbn [orb]. eexists. repeat split.
Qed.

End TraceFacts.

Lemma DisableTracing_report_disagrees_witness :
  Trace.message
    (snd (Trace.DisableTracing Z 0 Z.eqb (Trace.mkHandler "ctrl" "link-1" false)
            0 (String.eqb "link-1"))) =
    ("Link " ++ "ctrl" ++ "." ++ "link-1"
     ++ " matched? true. Old trace state: " ++ Trace.showBool false
     ++ ", New trace state: false")%string /\
  Trace.IsEnabled
    (fst (Trace.DisableTracing Z 0 Z.eqb (Trace.mkHandler "ctrl" "link-1" false)
            0 (String.eqb "link-1"))) = true.
Proof.
  apply (DisableTracing_report_disagrees Z 0 Z.eqb
           (Trace.mkHandler "ctrl" "link-1" false) 0 (String.eqb "link-1")).
  - reflexivity.
  - reflexivity.
Defined.

Lemma trace_decode_first_witness :
  let msg := TracePeek.mkMessage 1002 1 (-1) [x01] in
  let decoders : list TracePeek.TraceMessageDecoder :=
    [fun _ => None; fun _ => Some [x61]; fun _ => Some [x62]] in
  let ev := TracePeek.mkChannelMessage 99 "ctrl" "link-1" true 1002 1 (-1) 1 [x61] in
  (forall pre d post str,
     decoders = pre ++ d :: post ->
     Forall (fun p : TracePeek.TraceMessageDecoder => p msg = None) pre ->
     d msg = Some str ->
     TracePeek.Decode ev = str) /\
  (Forall (fun p : TracePeek.TraceMessageDecoder => p msg = None) decoders ->
   TracePeek.Decode ev = []).
Proof.
  cbv zeta.
  apply (trace_decode_first 1040
           [fun _ => None; fun _ => Some [x61]; fun _ => Some [x62]] 99
           (Trace.mkHandler "ctrl" "link-1" true)
           (TracePeek.mkMessage 1002 1 (-1) [x01]) "link-1" true).
  reflexivity.
Defined.

Lemma DisableTracing_starts_tracing_witness :
  let msg := TracePeek.mkMessage 1002 1 (-1) [x01] in
  TracePeek.trace 1040 [] 99 (TracePeek.NewChannelPeekHandler "ctrl" "link-1")
    msg "link-1" true = None /\
  exists ev,
    TracePeek.trace 1040 [] 99
      (fst (Trace.DisableTracing Z 0 Z.eqb
              (TracePeek.NewChannelPeekHandler "ctrl" "link-1")
              0 (String.eqb "link-1")))
      msg "link-1" true = Some ev /\
    TracePeek.Identity ev = "ctrl"%string /\
    TracePeek.Channel ev = "link-1"%string.
Proof.
  cbv zeta.
  apply (DisableTracing_starts_tracing Z 0 Z.eqb 1040 [] 99 "ctrl" "link-1" 0
           (String.eqb "link-1") (TracePeek.mkMessage 1002 1 (-1) [x01]) true).
  - reflexivity.
  - reflexivity.
  - simpl. lia.
  - vm_compute. discriminate.
Defined.

(** ** The new listener address against the server certificates *)

Section ListenerCertFacts.

Import ListenerCert.

Lemma Split_length (sep : ascii) (s : string) :
  length (Split sep s) = S (countSep sep s).
Proof.
  induction s as [|c rest IH]; [reflexivity|].
  cbn [Split countSep]. destruct (Ascii.eqb c sep).
  - cbn [length]. now rewrite IH.
  - destruct (Split sep rest) as [|h t]; cbn [length] in *; lia.
Qed.

Lemma inList_In (host : string) (l : list string) :
  inList host l = true <-> In host l.
Proof.
  unfold inList. rewrite existsb_exists. split.
  - intros (x & Hx & E). apply String.eqb_eq in E. now subst.
  - intros H. exists host. split; [exact H|apply String.eqb_refl].
Qed.

(** The certificate loop finds the host when some certificate lists it. *)
Lemma findHost_spec (host : string) (serverCerts : list TlsCertificate) :
  Forall (fun c => Leaf c <> None) serverCerts ->
  exists found,
    findHost host serverCerts = Ok found /\
    (found = true <->
     exists c leaf,
       In c serverCerts /\ Leaf c = Some leaf /\
       (In host (DNSNames leaf) \/ In host (IPAddresses leaf))).
Proof.
  induction serverCerts as [|c rest IH]; intros Hall.
  - exists false. split; [reflexivity|]. split; [discriminate|].
    intros (c & leaf & [] & _).
  - inversion Hall as [|? ? Hc Hrest]; subst.
    cbn [findHost]. destruct (Leaf c) as [leaf|] eqn:El; [|contradiction].
    destruct (inList host (DNSNames leaf)) eqn:Ed.
    { exists true. split; [reflexivity|]. split; [|reflexivity].
      intros _. exists c, leaf. split; [now left|]. split; [exact El|].
      left. now apply inList_In. }
    destruct (inList host (IPAddresses leaf)) eqn:Ei.
    { exists true. split; [reflexivity|]. split; [|reflexivity].
      intros _. exists c, leaf. split; [now left|]. split; [exact El|].
      right. now apply inList_In. }
    destruct (IH Hrest) as (found & Hf & Hiff).
    exists found. split; [exact Hf|]. rewrite Hiff. split.
    + intros (c' & leaf' & Hin & Hl & Hh). exists c', leaf'.
      split; [now right|]. split; assumption.
    + intros (c' & leaf' & [Heq|Hin] & Hl & Hh).
      * subst c'. rewrite El in Hl. injection Hl as <-.
        destruct Hh as [Hh|Hh]; apply inList_In in Hh; congruence.
      * exists c', leaf'. repeat split; assumption.
Qed.

(** X28. An address with fewer than two colons is refused before any
    certificate is looked at. *)
Theorem verifyNewListener_needs_three_segments
    (serverCerts : list TlsCertificate) (addr : string) :
  (countSep ":" addr < 2)%nat ->
  verifyNewListenerInServerCert serverCerts addr =
    Err "could not determine newListener's host value, expected at least three segments".
Proof.
  intros H. unfold verifyNewListenerInServerCert.
  rewrite Split_length.
  destruct (Nat.ltb_spec (S (countSep ":" addr)) 3); [reflexivity|lia].
Qed.

(** X29. With at least three segments in the address, at least one server
    certificate and no certificate without a leaf, the check succeeds exactly
    when the second segment of the address is a DNS name or an IP address of
    some certificate of the list, the first or any later one; otherwise it
    returns an error. *)
Theorem verifyNewListener_any_certificate
    (serverCerts : list TlsCertificate) (addr : string) :
  (2 <= countSep ":" addr)%nat ->
  serverCerts <> [] ->
  Forall (fun c => Leaf c <> None) serverCerts ->
  (verifyNewListenerInServerCert serverCerts addr = Ok tt <->
   exists c leaf,
     In c serverCerts /\ Leaf c = Some leaf /\
     (In (nth 1 (Split ":" addr) EmptyString) (DNSNames leaf) \/
      In (nth 1 (Split ":" addr) EmptyString) (IPAddresses leaf))) /\
  (verifyNewListenerInServerCert serverCerts addr = Ok tt \/
   exists e, verifyNewListenerInServerCert serverCerts addr = Err e).
Proof.
  intros Hseg Hne Hall. unfold verifyNewListenerInServerCert.
  rewrite Split_length.
  destruct (Nat.ltb_spec (S (countSep ":" addr)) 3); [lia|].
  destruct serverCerts as [|c0 rest]; [contradiction|].
  cbn [length Nat.eqb].
  destruct (findHost_spec (nth 1 (Split ":" addr) EmptyString) (c0 :: rest) Hall)
    as (found & Hf & Hiff).
  rewrite Hf. cbn [bind]. rewrite <- Hiff.
  destruct found; cbn [negb].
  - split; [split; reflexivity|now left].
  - split; [split; discriminate|right; eexists; reflexivity].
Qed.

End ListenerCertFacts.

Lemma verifyNewListener_needs_three_segments_witness :
  ListenerCert.verifyNewListenerInServerCert
    [ListenerCert.mkTlsCertificate
       (Some (ListenerCert.mkCertificate ["localhost"%string] []))]
    "localhost:1280" =
  Err "could not determine newListener's host value, expected at least three segments".
Proof.
  apply verifyNewListener_needs_three_segments. simpl. lia.
Defined.

Lemma verifyNewListener_any_certificate_witness :
  let serverCerts :=
    [ListenerCert.mkTlsCertificate
       (Some (ListenerCert.mkCertificate ["ctrl.internal"%string] []));
     ListenerCert.mkTlsCertificate
       (Some (ListenerCert.mkCertificate [] ["10.0.0.7"%string]))] in
  (ListenerCert.verifyNewListenerInServerCert serverCerts "tls:10.0.0.7:1280"
   = Ok tt <->
   exists c leaf,
     In c serverCerts /\ ListenerCert.Leaf c = Some leaf /\
     (In (nth 1 (ListenerCert.Split ":" "tls:10.0.0.7:1280") EmptyString)
         (ListenerCert.DNSNames leaf) \/
      In (nth 1 (ListenerCert.Split ":" "tls:10.0.0.7:1280") EmptyString)
         (ListenerCert.IPAddresses leaf))) /\
  (ListenerCert.verifyNewListenerInServerCert serverCerts "tls:10.0.0.7:1280"
   = Ok tt \/
   exists e,
     ListenerCert.verifyNewListenerInServerCert serverCerts "tls:10.0.0.7:1280"
     = Err e).
Proof.
  cbv zeta. apply verifyNewListener_any_certificate.
  - simpl. lia.
  - discriminate.
  - repeat constructor; discriminate.
Defined.
